(** * sn.dataframe: column type inference and schema synthesis

    A shallow embedding of [to_sqla] and [SNDF.reflect] from
    [src/sn/dataframe.py], together with the parts of the Python runtime,
    pandas and SQLAlchemy that the two functions observe.  Effects are kept
    as the code has them: exceptions are values of an error type, and the
    process-wide warnings filter list touched by [warnings.catch_warnings]
    is explicit state. *)

From Stdlib Require Import ZArith List String Ascii Bool Lia.
From stdpp Require Import base option list strings gmap.

Local Open Scope string_scope.
Local Open Scope Z_scope.

(** ** Python runtime: exceptions, warnings, a state-and-exception monad *)

Module Py.

Inductive exception : Type :=
| ValueError (msg : string)
| AttributeError (msg : string)
| IndexError (msg : string)
| InvalidRequestError (msg : string)
| WarningAsError (msg : string).

Definition is_AttributeError (e : exception) : bool :=
  match e with AttributeError _ => true | _ => false end.

(** Warning categories; [Warning_] is the base class every category
    derives from. *)
Inductive category : Type :=
| Warning_ | UserWarning | DeprecationWarning | FutureWarning.

(** The filter actions ['ignore'], ['error'] and ['default']. *)
Inductive action : Type := ActIgnore | ActError | ActDefault.

(** One entry of [warnings.filters]: (action, category). *)
Record warn_filter : Type := WarnFilter
  { f_action : action; f_category : category }.

(** The part of the interpreter state [to_sqla] can touch or depend on:
    the warnings filter list, the warnings shown to the user so far, and
    whether the installed pandas predates 1.0 (where [infer_dtype] called
    without [skipna] announces the coming change of default). *)
Record World : Type := MkWorld
  { filters : list warn_filter;
    shown : list category;
    pandas_pre_1_0 : bool }.

Definition set_filters (fs : list warn_filter) (w : World) : World :=
  {| filters := fs; shown := shown w; pandas_pre_1_0 := pandas_pre_1_0 w |}.

Definition add_shown (c : category) (w : World) : World :=
  {| filters := filters w; shown := c :: shown w;
     pandas_pre_1_0 := pandas_pre_1_0 w |}.

Definition M (A : Type) : Type := World -> (exception + A) * World.

Definition ret {A} (a : A) : M A := fun w => (inr a, w).

Definition raise {A} (e : exception) : M A := fun w => (inl e, w).

Definition bind {A B} (m : M A) (k : A -> M B) : M B :=
  fun w => match m w with
           | (inl e, w') => (inl e, w')
           | (inr a, w') => k a w'
           end.

Definition installed_pandas_pre_1_0 : M bool :=
  fun w => (inr (pandas_pre_1_0 w), w).

(** [try: body except AttributeError: handler]. *)
Definition try_except_AttributeError {A} (body handler : M A) : M A :=
  fun w => match body w with
           | (inl e, w') => if is_AttributeError e then handler w'
                            else (inl e, w')
           | r => r
           end.

End Py.

Import Py.

Declare Scope py_scope.
Delimit Scope py_scope with py.
Notation "x <- m ;; k" := (bind m (fun x => k))
  (at level 100, m at next level, right associativity) : py_scope.
Notation "m ;;; k" := (bind m (fun _ => k))
  (at level 100, right associativity) : py_scope.
Local Open Scope py_scope.

(** ** The [warnings] module *)

Module Warnings.

Definition category_eqb (a b : category) : bool :=
  match a, b with
  | Warning_, Warning_ | UserWarning, UserWarning
  | DeprecationWarning, DeprecationWarning
  | FutureWarning, FutureWarning => true
  | _, _ => false
  end.

Definition action_eqb (a b : action) : bool :=
  match a, b with
  | ActIgnore, ActIgnore | ActError, ActError
  | ActDefault, ActDefault => true
  | _, _ => false
  end.

Definition filter_eqb (f g : warn_filter) : bool :=
  action_eqb (f_action f) (f_action g)
  && category_eqb (f_category f) (f_category g).

(** [issubclass(c, parent)] on the categories above. *)
Definition issubclass (c parent : category) : bool :=
  match parent with
  | Warning_ => true
  | _ => category_eqb c parent
  end.

(** [list.remove]: drop the first equal item, if any. *)
Fixpoint remove_first (f : warn_filter) (fs : list warn_filter)
  : list warn_filter :=
  match fs with
  | [] => []
  | g :: fs' => if filter_eqb f g then fs' else g :: remove_first f fs'
  end.

(** [warnings.filterwarnings(action, category=...)]: the new entry goes
    to the front of the list, an identical older entry is removed. *)
Definition filterwarnings (a : action) (c : category) : M unit :=
  fun w =>
    let item := WarnFilter a c in
    (inr tt, set_filters (item :: remove_first item (filters w)) w).

(** [with warnings.catch_warnings(): body]: the filter list is saved on
    entry and restored on exit, also when the body raises. *)
Definition catch_warnings {A} (body : M A) : M A :=
  fun w => let '(r, w') := body w in (r, set_filters (filters w) w').

(** [warnings.warn(msg, category)]: the first matching filter decides;
    without a match the warning is shown. *)
Definition warn (msg : string) (c : category) : M unit :=
  fun w =>
    match List.find (fun f => issubclass c (f_category f)) (filters w) with
    | Some f =>
        match f_action f with
        | ActIgnore => (inr tt, w)
        | ActError => (inl (WarningAsError msg), w)
        | ActDefault => (inr tt, add_shown c w)
        end
    | None => (inr tt, add_shown c w)
    end.

End Warnings.

(** ** pandas: scalars, storage dtypes, Series, DataFrame *)

Module Pandas.

(** A [datetime.datetime] / [pd.Timestamp] value, field by field. *)
Record datetime : Type := MkDatetime
  { year : Z; month : Z; day : Z;
    hour : Z; minute : Z; second : Z; microsecond : Z; nanosecond : Z;
    tzinfo : option string }.

(** The scalars a column can hold.  [PyNone], [NaN] and [NaT] are the
    null markers.  Floats and complex numbers are carried as their bit
    patterns; [to_sqla] never looks inside them. *)
Inductive scalar : Type :=
| PyNone | NaN | NaT
| PyInt (z : Z)
| PyFloat (bits : Z)
| PyComplex (re im : Z)
| PyBool (b : bool)
| PyStr (s : string)
| PyBytes (s : string)
| Timestamp (d : datetime)
| PyDate (y m d : Z)
| PyTime (h m s us : Z)
| Timedelta (ns : Z).

(** Storage dtypes of a Series: the numpy dtypes, and of the extension
    dtypes of pandas the timezone-aware datetime dtype, the nullable
    floating and integer dtypes ([Float32], [Int64], ...) and the interval
    dtype. *)
Inductive dtype : Type :=
| int8 | int16 | int32 | int64
| uint8 | uint16 | uint32 | uint64
| float16 | float32 | float64
| complex64 | complex128
| bool_
| datetime64_ns
| datetime64_ns_tz (tz : string)
| timedelta64_ns
| object_
| Float32 | Float64
| Int8 | Int16 | Int32 | Int64
| UInt8 | UInt16 | UInt32 | UInt64
| interval (subtype closed : string).

Record Series : Type := MkSeries
  { s_dtype : dtype; s_values : list scalar }.

(** A DataFrame: named columns in order (names need not be unique). *)
Definition DataFrame : Type := list (string * Series).

(** The dtype named by a string, for [column.dtype == 'int32'] and
    [column.dtype == 'float32']. *)
Definition dtype_of_name (n : string) : option dtype :=
  if String.eqb n "int8" then Some int8
  else if String.eqb n "int16" then Some int16
  else if String.eqb n "int32" then Some int32
  else if String.eqb n "int64" then Some int64
  else if String.eqb n "uint8" then Some uint8
  else if String.eqb n "uint16" then Some uint16
  else if String.eqb n "uint32" then Some uint32
  else if String.eqb n "uint64" then Some uint64
  else if String.eqb n "float16" then Some float16
  else if String.eqb n "float32" then Some float32
  else if String.eqb n "float64" then Some float64
  else if String.eqb n "complex64" then Some complex64
  else if String.eqb n "complex128" then Some complex128
  else if String.eqb n "bool" then Some bool_
  else if String.eqb n "datetime64[ns]" then Some datetime64_ns
  else if String.eqb n "timedelta64[ns]" then Some timedelta64_ns
  else if String.eqb n "object" then Some object_
  else if String.eqb n "Float32" then Some Float32
  else if String.eqb n "Float64" then Some Float64
  else if String.eqb n "Int8" then Some Int8
  else if String.eqb n "Int16" then Some Int16
  else if String.eqb n "Int32" then Some Int32
  else if String.eqb n "Int64" then Some Int64
  else if String.eqb n "UInt8" then Some UInt8
  else if String.eqb n "UInt16" then Some UInt16
  else if String.eqb n "UInt32" then Some UInt32
  else if String.eqb n "UInt64" then Some UInt64
  else None.

Definition dtype_eqb (a b : dtype) : bool :=
  match a, b with
  | int8, int8 | int16, int16 | int32, int32 | int64, int64
  | uint8, uint8 | uint16, uint16 | uint32, uint32 | uint64, uint64
  | float16, float16 | float32, float32 | float64, float64
  | complex64, complex64 | complex128, complex128
  | bool_, bool_ | datetime64_ns, datetime64_ns
  | timedelta64_ns, timedelta64_ns | object_, object_
  | Float32, Float32 | Float64, Float64
  | Int8, Int8 | Int16, Int16 | Int32, Int32 | Int64, Int64
  | UInt8, UInt8 | UInt16, UInt16 | UInt32, UInt32 | UInt64, UInt64 => true
  | datetime64_ns_tz x, datetime64_ns_tz y => String.eqb x y
  | interval s c, interval s' c' => String.eqb s s' && String.eqb c c'
  | _, _ => false
  end.

(** [dtype == 'name']: a string that names no dtype compares unequal. *)
Definition dtype_eq_str (d : dtype) (n : string) : bool :=
  match dtype_of_name n with
  | Some d' => dtype_eqb d d'
  | None => false
  end.

(** Bits per element of a fixed-width integer or floating dtype. *)
Definition itemsize_bits (d : dtype) : option Z :=
  match d with
  | int8 | uint8 | Int8 | UInt8 => Some 8
  | int16 | uint16 | float16 | Int16 | UInt16 => Some 16
  | int32 | uint32 | float32 | Float32 | Int32 | UInt32 => Some 32
  | int64 | uint64 | float64 | Float64 | Int64 | UInt64 => Some 64
  | _ => None
  end.

Definition isna (v : scalar) : bool :=
  match v with PyNone | NaN | NaT => true | _ => false end.

(** [column[column.notna()]]: same dtype, null markers dropped. *)
Definition notna_filter (column : Series) : Series :=
  {| s_dtype := s_dtype column;
     s_values := List.filter (fun v => negb (isna v)) (s_values column) |}.

(** What each storage dtype can hold. *)
Definition in_range (bits : Z) (signed : bool) (z : Z) : bool :=
  if signed then (- 2 ^ (bits - 1) <=? z) && (z <? 2 ^ (bits - 1))
  else (0 <=? z) && (z <? 2 ^ bits).

Definition conforms (d : dtype) (v : scalar) : bool :=
  match d, v with
  | int8, PyInt z => in_range 8 true z
  | int16, PyInt z => in_range 16 true z
  | int32, PyInt z => in_range 32 true z
  | int64, PyInt z => in_range 64 true z
  | uint8, PyInt z => in_range 8 false z
  | uint16, PyInt z => in_range 16 false z
  | uint32, PyInt z => in_range 32 false z
  | uint64, PyInt z => in_range 64 false z
  | (float16 | float32 | float64), (PyFloat _ | NaN) => true
  | (complex64 | complex128), (PyComplex _ _ | NaN) => true
  | bool_, PyBool _ => true
  | datetime64_ns, Timestamp d =>
      match tzinfo d with None => true | Some _ => false end
  | datetime64_ns_tz tz, Timestamp d =>
      match tzinfo d with Some tz' => String.eqb tz tz' | None => false end
  | (datetime64_ns | datetime64_ns_tz _), NaT => true
  | timedelta64_ns, (Timedelta _ | NaT) => true
  | object_, _ => true
  (* pd.NA, the missing marker of the nullable dtypes, is written PyNone *)
  | (Float32 | Float64), (PyFloat _ | PyNone) => true
  | Int8, PyInt z => in_range 8 true z
  | Int16, PyInt z => in_range 16 true z
  | Int32, PyInt z => in_range 32 true z
  | Int64, PyInt z => in_range 64 true z
  | UInt8, PyInt z => in_range 8 false z
  | UInt16, PyInt z => in_range 16 false z
  | UInt32, PyInt z => in_range 32 false z
  | UInt64, PyInt z => in_range 64 false z
  | (Int8 | Int16 | Int32 | Int64 | UInt8 | UInt16 | UInt32 | UInt64),
    PyNone => true
  (* no scalar here is an Interval: an interval column holds nothing *)
  | _, _ => false
  end.

(** A Series pandas can actually build: every value fits the dtype. *)
Definition well_formed (column : Series) : bool :=
  forallb (conforms (s_dtype column)) (s_values column).

(** *** [pandas._libs.lib.infer_dtype] *)

(** [_try_infer_map]: a non-object dtype alone decides the kind, by its
    name or by its kind letter. *)
Definition try_infer_map (d : dtype) : option string :=
  match d with
  | int8 | int16 | int32 | int64
  | uint8 | uint16 | uint32 | uint64 => Some "integer"
  | float16 | float32 | float64 => Some "floating"
  | complex64 | complex128 => Some "complex"
  | bool_ => Some "boolean"
  | datetime64_ns | datetime64_ns_tz _ => Some "datetime64"
  | timedelta64_ns => Some "timedelta64"
  | object_ => None
  | Float32 | Float64 => Some "floating"
  | Int8 | Int16 | Int32 | Int64
  | UInt8 | UInt16 | UInt32 | UInt64 => Some "integer"
  | interval _ _ => Some "interval"
  end.

Definition is_int (v : scalar) : bool :=
  match v with PyInt _ => true | _ => false end.
Definition is_float (v : scalar) : bool :=
  match v with PyFloat _ => true | _ => false end.
Definition is_complex (v : scalar) : bool :=
  match v with PyComplex _ _ => true | _ => false end.
Definition is_bool (v : scalar) : bool :=
  match v with PyBool _ => true | _ => false end.
Definition is_str (v : scalar) : bool :=
  match v with PyStr _ => true | _ => false end.
Definition is_bytes (v : scalar) : bool :=
  match v with PyBytes _ => true | _ => false end.
Definition is_datetime (v : scalar) : bool :=
  match v with Timestamp _ => true | _ => false end.
(** [datetime] is a subclass of [date]. *)
Definition is_date (v : scalar) : bool :=
  match v with Timestamp _ | PyDate _ _ _ => true | _ => false end.
Definition is_time (v : scalar) : bool :=
  match v with PyTime _ _ _ _ => true | _ => false end.
Definition is_timedelta (v : scalar) : bool :=
  match v with Timedelta _ => true | _ => false end.

(** The last step of [infer_dtype] when no homogeneous kind fits. *)
Definition mixed (vs : list scalar) : string :=
  if existsb is_int vs then "mixed-integer" else "mixed".

(** Object-dtype inference over the non-null values ([to_sqla] only ever
    passes a column without nulls): the first value picks the family, the
    whole array must then agree.  Releases of pandas differ in how they
    name some heterogeneous arrays; no statement below looks at one. *)
Definition infer_object (values : list scalar) : string :=
  let vs := List.filter (fun v => negb (isna v)) values in
  match vs with
  | [] => "empty"
  | val :: _ =>
      match val with
      | Timedelta _ =>
          if forallb is_timedelta vs then "timedelta" else mixed vs
      | PyInt _ =>
          if forallb is_int vs then "integer"
          else if forallb (fun v => is_int v || is_float v) vs
               then "mixed-integer-float"
               else "mixed-integer"
      | Timestamp _ =>
          if forallb is_datetime vs then "datetime"
          else if forallb is_date vs then "date" else mixed vs
      | PyDate _ _ _ =>
          if forallb is_date vs then "date" else mixed vs
      | PyTime _ _ _ _ =>
          if forallb is_time vs then "time" else mixed vs
      | PyComplex _ _ =>
          if forallb is_complex vs then "complex" else mixed vs
      | PyFloat _ =>
          if forallb is_float vs then "floating"
          else if forallb (fun v => is_int v || is_float v) vs
               then "mixed-integer-float"
               else mixed vs
      | PyBool _ =>
          if forallb is_bool vs then "boolean" else mixed vs
      | PyStr _ =>
          if forallb is_str vs then "string" else mixed vs
      | PyBytes _ =>
          if forallb is_bytes vs then "bytes" else mixed vs
      | PyNone | NaN | NaT => mixed vs
      end
  end.

(** The kind [infer_dtype] reports for a Series. *)
Definition inferred_kind (column : Series) : string :=
  match try_infer_map (s_dtype column) with
  | Some kind => kind
  | None => infer_object (s_values column)
  end.

(** [infer_dtype(column)] without [skipna]: before pandas 1.0 the call
    announces the coming default with a FutureWarning. *)
Definition infer_dtype (column : Series) : M string :=
  pre <- installed_pandas_pre_1_0 ;;
  (if (pre : bool)
   then Warnings.warn
       "A future version of pandas will default to `skipna=True`. To silence this warning, pass `skipna=True|False` explicitly."
       FutureWarning
   else ret tt) ;;;
  ret (inferred_kind column).

(** *** Attribute access on a Series *)

(** [column.dt.tz]: the accessor exists only for datetime storage. *)
Definition dt_tz (column : Series) : M (option string) :=
  match s_dtype column with
  | datetime64_ns => ret None
  | datetime64_ns_tz tz => ret (Some tz)
  | _ => raise (AttributeError "Can only use .dt accessor with datetimelike values")
  end.

(** [column.tz]: a Series has no such attribute. *)
Definition Series_tz (column : Series) : M (option string) :=
  raise (AttributeError "'Series' object has no attribute 'tz'").

Definition hour_of (v : scalar) : option Z :=
  match v with Timestamp d => Some (hour d) | _ => None end.

(** [column.dt.hour]: one entry per value, missing for a null. *)
Definition dt_hour (column : Series) : M (list (option Z)) :=
  match s_dtype column with
  | datetime64_ns | datetime64_ns_tz _ =>
      ret (List.map hour_of (s_values column))
  | _ => raise (AttributeError "Can only use .dt accessor with datetimelike values")
  end.

(** [(hours == 0).all()]. *)
Definition all_eq_zero (hours : list (option Z)) : bool :=
  forallb (fun h => match h with Some z => z =? 0 | None => false end) hours.

Definition columns (df : DataFrame) : list string := List.map fst df.

(** [df.iloc[:, i]]. *)
Definition iloc (df : DataFrame) (i : nat) : M Series :=
  match nth_error df i with
  | Some (_, column) => ret column
  | None => raise (IndexError "single positional indexer is out-of-bounds")
  end.

End Pandas.

Import Pandas.

(** ** SQLAlchemy: column types, columns, tables *)

Module SA.

(** [sqlalchemy.types] as used by [to_sqla]. *)
Inductive sa_type : Type :=
| BigInteger | Integer
| Float (precision : Z)
| Text | Boolean | DateTime | Date | Time
| TIMESTAMP (timezone : bool).

(** The Python objects that travel through the [translation] table and
    the [sa_type] variable: a column type, a [str], or an exception
    instance. *)
Inductive pyobj : Type :=
| Ty (t : sa_type)
| Str (s : string)
| Exc (e : exception).

(** Storage bits of the integer column types. *)
Definition integer_bits (t : sa_type) : option Z :=
  match t with
  | Integer => Some 32
  | BigInteger => Some 64
  | _ => None
  end.

Record Column : Type := MkColumn
  { c_name : string; c_type : pyobj; c_primary_key : bool }.

(** A [MetaData] collection, by the names of the tables it holds. *)
Definition MetaData : Type := list string.

Record Table : Type := MkTable
  { t_name : string; t_metadata : MetaData; t_columns : list Column }.

(** [sa.Table(name, metadata, *columns)]: registers the table in the
    collection; a name the collection already holds is refused. *)
Definition new_Table (name : string) (metadata : MetaData)
    (cols : list Column) : M Table :=
  if existsb (String.eqb name) metadata
  then raise (InvalidRequestError "Table is already defined for this MetaData instance")
  else ret {| t_name := name; t_metadata := name :: metadata;
              t_columns := cols |}.

(** [bind.dialect], by what it does here: render a CREATE TABLE
    statement for a table. *)
Record Engine : Type := MkEngine
  { dialect_create_table : Table -> string }.

End SA.

Import SA.

(** ** [str.lower] and the [in] operator *)

(** Strings are sequences of code points below 256.  In that range
    [str.lower] moves exactly the capital letters A-Z and the capital
    Latin-1 letters U+00C0-U+00DE (U+00D7, the multiplication sign, is
    not a letter) 32 places up. *)
Definition is_upper (n : N) : bool :=
  (((65 <=? n) && (n <=? 90)) ||
   ((192 <=? n) && (n <=? 222) && negb (n =? 215)))%N.

Definition lower_char (c : ascii) : ascii :=
  let n := N_of_ascii c in
  if is_upper n then ascii_of_N (n + 32) else c.

Fixpoint lower (s : string) : string :=
  match s with
  | EmptyString => EmptyString
  | String c s' => String (lower_char c) (lower s')
  end.

(** [x in xs] for strings. *)
Definition py_in (x : string) (xs : list string) : bool :=
  existsb (String.eqb x) xs.

(** [enumerate(xs)]. *)
Fixpoint enumerate_from {A} (i : nat) (xs : list A) : list (nat * A) :=
  match xs with
  | [] => []
  | x :: xs' => (i, x) :: enumerate_from (S i) xs'
  end.

Definition enumerate {A} (xs : list A) : list (nat * A) := enumerate_from 0 xs.

(** ** [to_sqla] *)

(** The [translation] dict literal of [to_sqla]. *)
Definition translation : gmap string pyobj :=
  list_to_map
    [ ("timedelta64", Ty BigInteger);
      ("floating", Str "floating");
      ("integer", Str "integer");
      ("boolean", Ty Boolean);
      ("date", Ty Date);
      ("time", Ty Time);
      ("complex", Exc (ValueError "complex dtypes not supported")) ].

(** [if tz is not None: return TIMESTAMP(timezone=True)]: the value
    returned early, if any. *)
Definition return_if_tz (tz : option string) : option pyobj :=
  match tz with
  | Some _ => Some (Ty (TIMESTAMP true))
  | None => None
  end.

(** Lines 42-52: the branch taken for the kinds ['datetime64'] and
    ['datetime']. *)
Definition datetime_branch (column : Series) : M pyobj :=
  early <- try_except_AttributeError
             (tz <- dt_tz column ;; ret (return_if_tz tz))
             (tz <- Series_tz column ;; ret (return_if_tz tz)) ;;
  match early with
  | Some r => ret r
  | None =>
      hours <- dt_hour column ;;
      if all_eq_zero hours then ret (Ty Date) else ret (Ty DateTime)
  end.

(** Lines 64-85: the lookup in [translation] and what follows it. *)
Definition translate (column : Series) (col_type : string) : M pyobj :=
  match translation !! col_type with
  | None => (* except KeyError *) ret (Ty Text)
  | Some (Str s) =>
      (* isinstance(sa_type, str) *)
      let sa_type :=
        if String.eqb s "floating" then
          if dtype_eq_str (s_dtype column) "float32"
          then Ty (Float 23) else Ty (Float 53)
        else Str s in
      let sa_type :=
        match sa_type with
        | Str s' =>
            if String.eqb s' "integer" then
              if dtype_eq_str (s_dtype column) "int32"
              then Ty Integer else Ty BigInteger
            else sa_type
        | _ => sa_type
        end in
      ret sa_type
  | Some (Exc (ValueError msg)) =>
      (* isinstance(sa_type, ValueError): raise sa_type *)
      raise (ValueError msg)
  | Some sa_type => ret sa_type
  end.

Definition to_sqla (column : Series) : M pyobj :=
  (* column = column[column.notna()] *)
  let column := notna_filter column in
  (* with warnings.catch_warnings(): ... col_type = infer_dtype(column) *)
  col_type <- Warnings.catch_warnings
                (Warnings.filterwarnings ActIgnore FutureWarning ;;;
                 infer_dtype column) ;;
  if py_in col_type ["datetime64"; "datetime"]
  then datetime_branch column
  else translate column col_type.

(** ** [SNDF.reflect] *)

(** The [pk] argument: a single [str] or a list. *)
Inductive pk_arg : Type :=
| PkStr (s : string)
| PkList (l : list string).

(** One entry of [c_name_and_types]. *)
Definition triple : Type := (string * pyobj * bool)%type.

(** The body of [for i, name in enumerate(self._df.columns)].  The second
    argument of [dtypes.get] is an ordinary call argument: [to_sqla] runs
    before [get] looks the name up. *)
Fixpoint reflect_loop (df : DataFrame) (dtypes : gmap string pyobj)
    (pk : list string) (todo : list (nat * string)) (c_name_and_types : list triple)
  : M (list triple) :=
  match todo with
  | [] => ret c_name_and_types
  | (i, name) :: todo' =>
      column <- iloc df i ;;
      inferred <- to_sqla column ;;
      let type := default inferred (dtypes !! name) in
      let is_pk := py_in (lower name) (List.map lower pk) in
      reflect_loop df dtypes pk todo' (c_name_and_types ++ [(name, type, is_pk)])
  end.

(** Lines 222-234: argument defaults, then the loop. *)
Definition normalise_pk (pk : option pk_arg) : list string :=
  match pk with
  | None => []
  | Some (PkStr s) => [s]
  | Some (PkList l) => l
  end.

Definition schema_definition (df : DataFrame) (pk : option pk_arg)
    (dtypes : option (gmap string pyobj)) : M (list triple) :=
  let dtypes := default ∅ dtypes in
  let pk := normalise_pk pk in
  reflect_loop df dtypes pk (enumerate (columns df)) [].

Definition column_of_triple (t : triple) : Column :=
  let '(name, type, is_pk) := t in
  {| c_name := name; c_type := type; c_primary_key := is_pk |}.

Definition triple_of_column (c : Column) : triple :=
  (c_name c, c_type c, c_primary_key c).

(** What [reflect] returns: the table, or its CREATE TABLE text. *)
Inductive reflected : Type :=
| AsTable (tbl : Table)
| AsStatement (stmt : string).

Definition reflect (df : DataFrame) (table_name : string) (bind : Engine)
    (pk : option pk_arg) (dtypes : option (gmap string pyobj))
    (as_sql_stmt : bool) : M reflected :=
  c_name_and_types <- schema_definition df pk dtypes ;;
  let cols := List.map column_of_triple c_name_and_types in
  tbl <- new_Table table_name [] cols ;;
  if as_sql_stmt
  then ret (AsStatement (dialect_create_table bind tbl))
  else ret (AsTable tbl).

(** The Schema Definition carried by a table. *)
Definition schema_of (tbl : Table) : list triple :=
  List.map triple_of_column (t_columns tbl).

(** ** Vocabulary of the specification *)

(** An interpreter with no warning filters and a current pandas. *)
Definition quiet_world : World :=
  {| filters := []; shown := []; pandas_pre_1_0 := false |}.

(** The exception the specification calls [UnsupportedKindError]: the
    [ValueError] stored under ['complex'] in [translation]. *)
Definition UnsupportedKindError : exception :=
  ValueError "complex dtypes not supported".

(** The Inferred Kind of a column: what [infer_dtype] reports once the
    nulls are gone. *)
Definition kind_of (column : Series) : string :=
  inferred_kind (notna_filter column).

Definition datetime_kind (column : Series) : bool :=
  py_in (kind_of column) ["datetime64"; "datetime"].

(** Storage on which the [.dt] accessor exists. *)
Definition datetime64_storage (d : dtype) : bool :=
  match d with
  | datetime64_ns | datetime64_ns_tz _ => true
  | _ => false
  end.

Definition carries_tz (v : scalar) : bool :=
  match v with
  | Timestamp d => match tzinfo d with Some _ => true | None => false end
  | _ => false
  end.

(** Time of day exactly midnight: hour, minute, second, sub-second zero. *)
Definition at_midnight (v : scalar) : bool :=
  match v with
  | Timestamp d =>
      (hour d =? 0) && (minute d =? 0) && (second d =? 0)
      && (microsecond d =? 0) && (nanosecond d =? 0)
  | _ => false
  end.

Definition hour_is_zero (v : scalar) : bool :=
  match v with
  | Timestamp d => hour d =? 0
  | _ => false
  end.

Definition non_null (column : Series) : list scalar :=
  s_values (notna_filter column).

Definition all_null (column : Series) : bool :=
  forallb isna (s_values column).

(** Two characters that are the same letter up to case. *)
Definition same_letter (a b : ascii) : Prop :=
  a = b
  \/ (is_upper (N_of_ascii a) = true /\ N_of_ascii b = (N_of_ascii a + 32)%N)
  \/ (is_upper (N_of_ascii b) = true /\ N_of_ascii a = (N_of_ascii b + 32)%N).

(** Equality of names up to the case of their letters. *)
Inductive eq_ignoring_case : string -> string -> Prop :=
| eic_empty : eq_ignoring_case EmptyString EmptyString
| eic_step a b s t :
    same_letter a b -> eq_ignoring_case s t ->
    eq_ignoring_case (String a s) (String b t).

(** The outcome of [to_sqla] on a column; it does not depend on the
    interpreter state ([to_sqla_run] below). *)
Definition inferred (column : Series) : exception + pyobj :=
  fst (to_sqla column quiet_world).

(** One turn of the loop of [reflect], read as a function. *)
Definition entry_for (dtypes : gmap string pyobj) (pk : list string)
    (nc : string * Series) : exception + triple :=
  match inferred (snd nc) with
  | inl e => inl e
  | inr t =>
      inr (fst nc, default t (dtypes !! fst nc),
           py_in (lower (fst nc)) (List.map lower pk))
  end.

(** The whole loop read as a function: the triples of the columns in
    order, or the first exception met ([reflect_loop_collect] below). *)
Fixpoint collect (dtypes : gmap string pyobj) (pk : list string)
    (df : DataFrame) : exception + list triple :=
  match df with
  | [] => inr []
  | nc :: df' =>
      match entry_for dtypes pk nc with
      | inl e => inl e
      | inr t =>
          match collect dtypes pk df' with
          | inl e => inl e
          | inr ts => inr (t :: ts)
          end
      end
  end.

(** [lower_char] on code points. *)
Definition lowerN (n : N) : N := if is_upper n then (n + 32)%N else n.

(** The table [reflect] builds from a list of triples. *)
Definition table_of (table_name : string) (ts : list triple) : Table :=
  {| t_name := table_name; t_metadata := [table_name];
     t_columns := List.map column_of_triple ts |}.

(** ** Sample data *)

(** An interpreter that turns every warning into an error, with a pandas
    old enough to warn on [infer_dtype]. *)
Definition strict_legacy_world : World :=
  {| filters := [WarnFilter ActError Warning_]; shown := [];
     pandas_pre_1_0 := true |}.

Definition naive (y m d hh mm ss : Z) : scalar :=
  Timestamp (MkDatetime y m d hh mm ss 0 0 None).

Definition aware (tz : string) (y m d hh mm ss : Z) : scalar :=
  Timestamp (MkDatetime y m d hh mm ss 0 0 (Some tz)).

Definition sqlite : Engine :=
  {| dialect_create_table := fun tbl => "CREATE TABLE " ++ t_name tbl |}.

(** [pd.Series([1+2j, 3+0j])]. *)
Definition complex_column : Series :=
  MkSeries complex128 [PyComplex 1 2; PyComplex 3 0].

(** [pd.Series([nan, nan])]: all null, stored as float64. *)
Definition all_nan_column : Series := MkSeries float64 [NaN; NaN].

(** [pd.Series([None, None])]: all null, stored as object. *)
Definition all_none_column : Series := MkSeries object_ [PyNone; PyNone].

(** Half past midnight on two days, stored as datetime64[ns]. *)
Definition half_past_midnight_column : Series :=
  MkSeries datetime64_ns [naive 2020 1 1 0 30 0; naive 2020 1 2 0 30 0].

Definition midnight_column : Series :=
  MkSeries datetime64_ns [naive 2020 1 1 0 0 0; NaT; naive 2020 1 2 0 0 0].

Definition one_oclock_column : Series :=
  MkSeries datetime64_ns [naive 2020 1 1 1 0 0; naive 2020 1 2 0 0 0].

(** Midnights in UTC, stored as datetime64[ns, UTC]. *)
Definition utc_midnight_column : Series :=
  MkSeries (datetime64_ns_tz "UTC")
    [aware "UTC" 2020 1 1 0 0 0; NaT; aware "UTC" 2020 1 2 0 0 0].

(** Timestamps of two different zones: pandas stores them as object. *)
Definition two_zone_column : Series :=
  MkSeries object_
    [aware "UTC" 2020 1 1 0 0 0; aware "US/Eastern" 2020 1 2 0 0 0].

Definition uint32_column : Series := MkSeries uint32 [PyInt 1; PyInt 2].
Definition int32_column : Series := MkSeries int32 [PyInt 1; PyInt (-2)].
Definition int64_column : Series := MkSeries int64 [PyInt 1; PyInt 4294967296].
Definition float32_column : Series := MkSeries float32 [PyFloat 0; NaN].
Definition float64_column : Series := MkSeries float64 [PyFloat 0; PyFloat 1].
(** [pd.Series([0.0, None], dtype='Float32')]: the nullable dtype. *)
Definition nullable_float32_column : Series :=
  MkSeries Float32 [PyFloat 0; PyNone].
Definition text_column : Series := MkSeries object_ [PyStr "a"; PyNone].

(** The example dataset of the specification: id, amount, name, created. *)
Definition example_frame : DataFrame :=
  [ ("id", int64_column); ("amount", float32_column);
    ("name", text_column); ("created", midnight_column) ].

Definition dates_frame : DataFrame :=
  [ ("dates_not_null", midnight_column); ("ints_not_null", int64_column) ].

(** [dtypes={'z': Text}]. *)
Definition text_override : gmap string pyobj := {[ "z" := Ty Text ]}.

Definition complex_frame : DataFrame :=
  [ ("id", int64_column); ("z", complex_column) ].

(** * The rest of the library *)

(** ** Further Python exceptions *)

(** The exceptions of the functions below; [Raised] carries one of the
    exceptions already met, and [NotInList x] is the ValueError of
    [list.index], whose message is the repr of [x] followed by
    [is not in list]. *)
Inductive pyerr : Type :=
| Raised (e : exception)
| KeyError (key : string)
| TypeError (msg : string)
| OverflowError (msg : string)
| UnicodeDecodeError (codec : string) (position : nat)
| NotInList (x : string).

(** ** [SNDF.is_valid_pk] *)

Module Frame.

(** [df.shape[0]]: the number of rows, which every column shares. *)
Definition nrows (df : DataFrame) : nat :=
  match df with
  | [] => 0%nat
  | (_, column) :: _ => List.length (s_values column)
  end.

(** Every column of a frame has the frame's number of rows. *)
Definition rectangular (df : DataFrame) : Prop :=
  Forall (fun nc => List.length (s_values (snd nc)) = nrows df) df.

(** What [df[column_name]] yields: nothing under that name, the one
    column of that name, or a frame of all the columns of that name. *)
Inductive selection : Type :=
| Missing
| OneSeries (column : Series)
| SubFrame (cols : DataFrame).

Definition getitem (df : DataFrame) (column_name : string) : selection :=
  match List.filter (fun nc => String.eqb (fst nc) column_name) df with
  | [] => Missing
  | [(_, column)] => OneSeries column
  | cols => SubFrame cols
  end.

Section Unique.

(** The equality of the hash table behind [Series.unique]. *)
Variable same : scalar -> scalar -> bool.

(** [Series.unique]: the values in order of first appearance; a value
    equal to one already kept is dropped. *)
Fixpoint unique_from (seen : list scalar) (vs : list scalar) : list scalar :=
  match vs with
  | [] => []
  | v :: vs' =>
      if existsb (same v) seen then unique_from seen vs'
      else v :: unique_from (v :: seen) vs'
  end.

Definition unique (column : Series) : list scalar :=
  unique_from [] (s_values column).

(** [self._df.shape[0] == len(self._df[column_name].unique())]. *)
Definition is_valid_pk (df : DataFrame) (column_name : string)
  : pyerr + bool :=
  let rows := nrows df in
  match getitem df column_name with
  | Missing => inl (KeyError column_name)
  | SubFrame _ =>
      inl (Raised (AttributeError "'DataFrame' object has no attribute 'unique'"))
  | OneSeries column => inr (Nat.eqb rows (List.length (unique column)))
  end.

End Unique.

(** No value of the list is equal to an earlier one. *)
Definition pairwise_distinct (same : scalar -> scalar -> bool)
    (vs : list scalar) : Prop :=
  ForallOrdPairs (fun earlier later => same later earlier = false) vs.

End Frame.

(** ** [reduce_mem_usage]: the branch for integer columns *)

Module MemUsage.

(** [str(dtype)]. *)
Definition dtype_name (d : dtype) : string :=
  match d with
  | int8 => "int8" | int16 => "int16" | int32 => "int32" | int64 => "int64"
  | uint8 => "uint8" | uint16 => "uint16" | uint32 => "uint32"
  | uint64 => "uint64"
  | float16 => "float16" | float32 => "float32" | float64 => "float64"
  | complex64 => "complex64" | complex128 => "complex128"
  | bool_ => "bool"
  | datetime64_ns => "datetime64[ns]"
  | datetime64_ns_tz tz => "datetime64[ns, " ++ tz ++ "]"
  | timedelta64_ns => "timedelta64[ns]"
  | object_ => "object"
  | Float32 => "Float32" | Float64 => "Float64"
  | Int8 => "Int8" | Int16 => "Int16" | Int32 => "Int32" | Int64 => "Int64"
  | UInt8 => "UInt8" | UInt16 => "UInt16" | UInt32 => "UInt32"
  | UInt64 => "UInt64"
  | interval subtype closed => "interval[" ++ subtype ++ ", " ++ closed ++ "]"
  end.

(** [col_type != object] and [str(col_type)[:3] == 'int']: the test that
    leads to lines 298-305. *)
Definition takes_int_branch (col_type : dtype) : bool :=
  negb (dtype_eqb col_type object_)
  && String.eqb (substring 0 3 (dtype_name col_type)) "int".

(** [np.iinfo(np.intN).min] and [.max]. *)
Definition iinfo_min (bits : Z) : Z := - 2 ^ (bits - 1).
Definition iinfo_max (bits : Z) : Z := 2 ^ (bits - 1) - 1.

Definition int_of (v : scalar) : option Z :=
  match v with PyInt z => Some z | _ => None end.

(** [df[col].min()] and [.max()] on an integer column; [None] stands for
    the NaN an empty column gives. *)
Fixpoint series_min (vs : list scalar) : option Z :=
  match vs with
  | [] => None
  | v :: vs' =>
      match int_of v, series_min vs' with
      | Some z, Some m => Some (Z.min z m)
      | Some z, None => Some z
      | None, m => m
      end
  end.

Fixpoint series_max (vs : list scalar) : option Z :=
  match vs with
  | [] => None
  | v :: vs' =>
      match int_of v, series_max vs' with
      | Some z, Some m => Some (Z.max z m)
      | Some z, None => Some z
      | None, m => m
      end
  end.

(** Conversion of one integer to a signed type of [bits] bits: numpy
    wraps around. *)
Definition wrap (bits : Z) (z : Z) : Z :=
  (z + 2 ^ (bits - 1)) mod 2 ^ bits - 2 ^ (bits - 1).

Definition cast_value (bits : Z) (v : scalar) : scalar :=
  match v with
  | PyInt z => PyInt (wrap bits z)
  | _ => v
  end.

(** [df[col].astype(np.intN)]. *)
Definition astype_int (d : dtype) (bits : Z) (column : Series) : Series :=
  {| s_dtype := d; s_values := List.map (cast_value bits) (s_values column) |}.

(** Lines 295-305, for a column that takes the integer branch.  A
    comparison with NaN is false, so an empty column passes through. *)
Definition downscale_int (column : Series) : Series :=
  match series_min (s_values column), series_max (s_values column) with
  | Some c_min, Some c_max =>
      if (c_min >? iinfo_min 8) && (c_max <? iinfo_max 8)
      then astype_int int8 8 column
      else if (c_min >? iinfo_min 16) && (c_max <? iinfo_max 16)
      then astype_int int16 16 column
      else if (c_min >? iinfo_min 32) && (c_max <? iinfo_max 32)
      then astype_int int32 32 column
      else if (c_min >? iinfo_min 64) && (c_max <? iinfo_max 64)
      then astype_int int64 64 column
      else column
  | _, _ => column
  end.

Definition all_ints (vs : list scalar) : Prop :=
  Forall (fun v => exists z, v = PyInt z) vs.

(** The integers strictly between the two ends of a signed type. *)
Definition strictly_inside (bits : Z) (z : Z) : Prop :=
  iinfo_min bits < z < iinfo_max bits.

End MemUsage.

(** ** [sn.dattim.nearest_future] *)

Module Dattim.

(** [xs.index(x)]: the first position of [x]. *)
Fixpoint index_from (i : Z) (x : string) (xs : list string) : option Z :=
  match xs with
  | [] => None
  | y :: xs' => if String.eqb y x then Some i else index_from (i + 1) x xs'
  end.

Definition list_index (xs : list string) (x : string) : pyerr + Z :=
  match index_from 0 x xs with
  | Some i => inr i
  | None => inl (NotInList x)
  end.

(** The [weekday] argument: a name or a number. *)
Inductive weekday_arg : Type :=
| DayName (s : string)
| DayNumber (n : Z).

(** A [datetime.datetime]: the proleptic Gregorian ordinal of its date
    (1 is 0001-01-01) and the microseconds since its midnight. *)
Record pydatetime : Type := MkPyDatetime
  { ordinal : Z; time_of_day : Z }.

Definition MINORDINAL : Z := 1.
(** [datetime.max.toordinal()], 9999-12-31. *)
Definition MAXORDINAL : Z := 3652059.

Definition in_calendar (dt : pydatetime) : Prop :=
  MINORDINAL <= ordinal dt <= MAXORDINAL.

(** [dt.weekday()]: Monday is 0. *)
Definition weekday (dt : pydatetime) : Z := (ordinal dt + 6) mod 7.

(** [dt + datetime.timedelta(days)]. *)
Definition add_days (dt : pydatetime) (days : Z) : pyerr + pydatetime :=
  let o := ordinal dt + days in
  if (MINORDINAL <=? o) && (o <=? MAXORDINAL)
  then inr {| ordinal := o; time_of_day := time_of_day dt |}
  else inl (OverflowError "date value out of range").

(** The closure [_wrapper], with the resolved [weekday] it captures. *)
Definition _wrapper (weekday_ : Z) (dt : pydatetime) : pyerr + pydatetime :=
  let days := ((weekday_ - weekday dt) + 7) mod 7 in
  add_days dt days.

Section Locale.

(** [calendar.day_name]: the names of the seven days in the current
    locale, Monday first. *)
Variable day_name : list string.

Definition nearest_future (weekday_ : weekday_arg)
  : pyerr + (pydatetime -> pyerr + pydatetime) :=
  match weekday_ with
  | DayName s =>
      match list_index (List.map lower day_name) s with
      | inl e => inl e
      | inr i => inr (_wrapper i)
      end
  | DayNumber n => inr (_wrapper n)
  end.

(** [nearest_future(weekday)(dt)]. *)
Definition observance (weekday_ : weekday_arg) (dt : pydatetime)
  : pyerr + pydatetime :=
  match nearest_future weekday_ with
  | inl e => inl e
  | inr f => f dt
  end.

End Locale.

(** [calendar.day_name] in an English locale. *)
Definition english_day_name : list string :=
  [ "Monday"; "Tuesday"; "Wednesday"; "Thursday"; "Friday"; "Saturday";
    "Sunday" ].

End Dattim.

(** ** [sn.io.spss_value_encoder] *)

Module SPSS.

(** The values of a row of an SPSS file, and a decoded [str] as its code
    points. *)
Inductive value : Type :=
| VNone
| VFloat (bits : Z)
| VBytes (b : list ascii)
| VStr (codepoints : list N).

(** [v + 0]. *)
Definition add_zero (v : value) : pyerr + value :=
  match v with
  | VFloat bits => inr (VFloat bits)
  | VNone => inl (TypeError "unsupported operand type(s) for +: 'NoneType' and 'int'")
  | VBytes _ => inl (TypeError "can't concat int to bytes")
  | VStr _ => inl (TypeError "can only concatenate str (not int) to str")
  end.

(** Rows 0x80-0x9F of the CP1252 table; five bytes are undefined. *)
Definition cp1252_high : list (option N) :=
  [ Some 8364; None; Some 8218; Some 402; Some 8222; Some 8230; Some 8224;
    Some 8225; Some 710; Some 8240; Some 352; Some 8249; Some 338; None;
    Some 381; None;
    None; Some 8216; Some 8217; Some 8220; Some 8221; Some 8226; Some 8211;
    Some 8212; Some 732; Some 8482; Some 353; Some 8250; Some 339; None;
    Some 382; Some 376 ]%N.

Definition cp1252_char (b : ascii) : option N :=
  let n := N_of_ascii b in
  if (n <? 128)%N then Some n
  else if (n <? 160)%N
       then match nth_error cp1252_high (N.to_nat (n - 128)) with
            | Some cp => cp
            | None => None
            end
       else Some n.

(** [b.decode('CP1252')] from position [i] on. *)
Fixpoint decode_from (i : nat) (b : list ascii) : pyerr + list N :=
  match b with
  | [] => inr []
  | c :: b' =>
      match cp1252_char c with
      | None => inl (UnicodeDecodeError "charmap" i)
      | Some cp =>
          match decode_from (S i) b' with
          | inl e => inl e
          | inr cps => inr (cp :: cps)
          end
      end
  end.

(** [v.decode('CP1252')]: only [bytes] has the method. *)
Definition decode (v : value) : pyerr + value :=
  match v with
  | VBytes b =>
      match decode_from 0 b with
      | inl e => inl e
      | inr cps => inr (VStr cps)
      end
  | VStr _ => inl (Raised (AttributeError "'str' object has no attribute 'decode'"))
  | VFloat _ => inl (Raised (AttributeError "'float' object has no attribute 'decode'"))
  | VNone => inl (Raised (AttributeError "'NoneType' object has no attribute 'decode'"))
  end.

Definition spss_value_encoder (v : value) : pyerr + value :=
  match v with
  | VNone => inr v
  | _ =>
      match add_zero v with
      | inl (TypeError _) => decode v
      | inl e => inl e
      | inr _ => inr v
      end
  end.

(** The bytes CP1252 leaves undefined. *)
Definition undefined_byte (b : ascii) : bool :=
  existsb (N.eqb (N_of_ascii b)) [129; 141; 143; 144; 157]%N.

End SPSS.

(** ** More vocabulary for [to_sqla] and [reflect] *)

(** The keys of [translation]. *)
Definition translation_keys : list string :=
  [ "timedelta64"; "floating"; "integer"; "boolean"; "date"; "time";
    "complex" ].

Definition is_column_type (o : pyobj) : bool :=
  match o with Ty _ => true | _ => false end.

(** Storage whose kind and type never depend on the values held. *)
Definition typed_by_storage (d : dtype) : bool :=
  match d with
  | object_ | datetime64_ns => false
  | _ => true
  end.

(** Overrides SQLAlchemy's Column accepts: column types. *)
Definition overrides_are_types (dtypes : option (gmap string pyobj)) : Prop :=
  forall name o, default ∅ dtypes !! name = Some o -> is_column_type o = true.

Definition name_of (t : triple) : string := fst (fst t).
Definition type_of (t : triple) : pyobj := snd (fst t).
Definition is_pk_of (t : triple) : bool := snd t.

(** ** More sample data *)

Definition timedelta_column : Series :=
  MkSeries timedelta64_ns [Timedelta 86400000000000; NaT].

Definition bool_column : Series := MkSeries bool_ [PyBool true; PyBool false].

(** An all-NaT column of naive datetime64 storage. *)
Definition all_nat_column : Series := MkSeries datetime64_ns [NaT; NaT].

(** The same integers with and without nulls around them, as object. *)
Definition ints_with_nulls : Series :=
  MkSeries object_ [PyNone; PyInt 1; NaN; PyInt 2].
Definition ints_without_nulls : Series := MkSeries object_ [PyInt 1; PyInt 2].

(** [dtypes={'name': Float(precision=53)}]. *)
Definition name_override : gmap string pyobj := {[ "name" := Ty (Float 53) ]}.

(** Equality of scalars as values, the equality of the hash table on a
    column of integers, strings or timestamps; a null is equal to the
    same null. *)
#[global] Instance datetime_eq_dec : EqDecision datetime.
Proof. solve_decision. Defined.

#[global] Instance scalar_eq_dec : EqDecision scalar.
Proof. solve_decision. Defined.

Definition structural_same (a b : scalar) : bool := bool_decide (a = b).

Definition key_column : Series := MkSeries int64 [PyInt 3; PyInt 1; PyInt 2].
Definition repeating_column : Series :=
  MkSeries float64 [PyFloat 7; NaN; PyFloat 9; NaN].

Definition keyed_frame : DataFrame :=
  [ ("id", key_column); ("label", MkSeries object_ [PyStr "a"; PyNone; PyStr "a"]) ].

Definition gappy_frame : DataFrame := [ ("x", repeating_column) ].

(** An int8 column that holds the largest int8. *)
Definition full_int8_column : Series := MkSeries int8 [PyInt 5; PyInt 127].
Definition small_int64_column : Series := MkSeries int64 [PyInt (-3); PyInt 100].

(** 2020-02-01, a Saturday, at midnight; the example of the docstring
    of [nearest_future]. *)
Definition superbowl_eve : Dattim.pydatetime :=
  {| Dattim.ordinal := 737456; Dattim.time_of_day := 0 |}.

(** 9999-12-31, a Friday: the last day of [datetime]. *)
Definition last_day : Dattim.pydatetime :=
  {| Dattim.ordinal := Dattim.MAXORDINAL; Dattim.time_of_day := 0 |}.

(** The bytes of [b'caf\xe9'] and of [b'\x81']. *)
Definition cafe_bytes : list ascii :=
  [ascii_of_N 99; ascii_of_N 97; ascii_of_N 102; ascii_of_N 233].
Definition undefined_bytes : list ascii := [ascii_of_N 97; ascii_of_N 129].

(** * Properties *)

(** ** The monad and the warnings filter *)

Section Monad.

Context {A B : Type}.

Lemma bind_ret_run (a : A) (k : A -> M B) (w : World) :
  bind (ret a) k w = k a w.
Proof. reflexivity. Qed.

Lemma bind_run_ok (m : M A) (k : A -> M B) (a : A) (w w' : World) :
  m w = (inr a, w') -> bind m k w = k a w'.
Proof. intros Hm. unfold bind. now rewrite Hm. Qed.

Lemma bind_run_raise (m : M A) (k : A -> M B) (e : exception) (w w' : World) :
  m w = (inl e, w') -> bind m k w = (inl e, w').
Proof. intros Hm. unfold bind. now rewrite Hm. Qed.

End Monad.

Lemma set_filters_same (w : World) : set_filters (filters w) w = w.
Proof. now destruct w. Qed.

(** Inside [to_sqla]'s [with] block the FutureWarning of an old pandas is
    swallowed, and on exit the caller's filter list is back in place: the
    block yields the kind and leaves the world as it found it. *)
Lemma infer_dtype_silently (column : Series) (w : World) :
  Warnings.catch_warnings
    (Warnings.filterwarnings ActIgnore FutureWarning ;;; infer_dtype column) w
  = (inr (inferred_kind column), w).
Proof.
  destruct w as [fs sh pre].
  unfold Warnings.catch_warnings, Warnings.filterwarnings, infer_dtype,
    installed_pandas_pre_1_0, bind.
  destruct pre; reflexivity.
Qed.

(** [to_sqla] after its first two statements. *)
Lemma to_sqla_dispatch (column : Series) (w : World) :
  to_sqla column w =
  (if datetime_kind column
   then datetime_branch (notna_filter column) w
   else translate (notna_filter column) (kind_of column) w).
Proof.
  unfold to_sqla.
  rewrite (bind_run_ok _ _ _ _ _ (infer_dtype_silently (notna_filter column) w)).
  unfold datetime_kind, kind_of.
  now destruct (py_in _ _).
Qed.

Lemma datetime_branch_world (column : Series) (w : World) :
  snd (datetime_branch column w) = w.
Proof.
  unfold datetime_branch, try_except_AttributeError, dt_tz, Series_tz,
    dt_hour, bind, ret, raise.
  destruct (s_dtype column); simpl; try reflexivity.
  now destruct (all_eq_zero _).
Qed.

Lemma datetime_branch_indep (column : Series) (w1 w2 : World) :
  fst (datetime_branch column w1) = fst (datetime_branch column w2).
Proof.
  unfold datetime_branch, try_except_AttributeError, dt_tz, Series_tz,
    dt_hour, bind, ret, raise.
  destruct (s_dtype column); simpl; try reflexivity.
  now destruct (all_eq_zero _).
Qed.

Lemma translate_world (column : Series) (k : string) (w : World) :
  snd (translate column k w) = w.
Proof.
  unfold translate.
  destruct (translation !! k) as [[t|s|[msg|msg|msg|msg|msg]]|]; reflexivity.
Qed.

Lemma translate_indep (column : Series) (k : string) (w1 w2 : World) :
  fst (translate column k w1) = fst (translate column k w2).
Proof.
  unfold translate.
  destruct (translation !! k) as [[t|s|[msg|msg|msg|msg|msg]]|]; reflexivity.
Qed.

(** [to_sqla] leaves the interpreter state as it found it ... *)
Lemma to_sqla_world (column : Series) (w : World) :
  snd (to_sqla column w) = w.
Proof.
  rewrite to_sqla_dispatch.
  destruct (datetime_kind column);
    [apply datetime_branch_world | apply translate_world].
Qed.

(** ... and its outcome does not depend on that state. *)
Lemma to_sqla_indep (column : Series) (w1 w2 : World) :
  fst (to_sqla column w1) = fst (to_sqla column w2).
Proof.
  rewrite !to_sqla_dispatch.
  destruct (datetime_kind column);
    [apply datetime_branch_indep | apply translate_indep].
Qed.

(** [to_sqla] runs silently: no warning is shown, whatever the filters. *)
Lemma to_sqla_silent (column : Series) (w : World) :
  shown (snd (to_sqla column w)) = shown w.
Proof. now rewrite to_sqla_world. Qed.

(** The outcome of [to_sqla], as a function of the column alone. *)
Lemma to_sqla_run (column : Series) (w : World) :
  to_sqla column w = (fst (to_sqla column quiet_world), w).
Proof.
  rewrite (surjective_pairing (to_sqla column w)).
  now rewrite to_sqla_world, (to_sqla_indep column w quiet_world).
Qed.

(** ** [to_sqla], kind by kind *)

Lemma translation_floating : translation !! "floating" = Some (Str "floating").
Proof. reflexivity. Qed.

Lemma translation_integer : translation !! "integer" = Some (Str "integer").
Proof. reflexivity. Qed.

Lemma translation_complex :
  translation !! "complex" = Some (Exc UnsupportedKindError).
Proof. reflexivity. Qed.

Lemma translation_empty : translation !! "empty" = None.
Proof. reflexivity. Qed.

(** A kind outside the two datetime kinds goes through [translate]. *)
Lemma to_sqla_translate (column : Series) (k : string) (w : World) :
  kind_of column = k ->
  py_in k ["datetime64"; "datetime"] = false ->
  to_sqla column w = translate (notna_filter column) k w.
Proof.
  intros Hk Hdt. rewrite to_sqla_dispatch.
  unfold datetime_kind. now rewrite Hk, Hdt.
Qed.

(** Without nulls left, nothing is left. *)
Lemma all_null_filtered (vs : list scalar) :
  forallb isna vs = true ->
  List.filter (fun v => negb (isna v)) vs = [].
Proof.
  induction vs as [|v vs IH]; simpl; [reflexivity|].
  intros [Hv Hvs]%andb_prop. now rewrite Hv, IH.
Qed.

(** Storage of the integer kind. *)
Lemma integer_storage (column : Series) :
  kind_of column = "integer" ->
  (exists bits, itemsize_bits (s_dtype column) = Some bits /\ bits <= 64)
  \/ s_dtype column = object_.
Proof.
  unfold kind_of, inferred_kind. simpl.
  destruct (s_dtype column); simpl; intros H; try discriminate H;
    try (now right); left; eexists; split; try reflexivity; lia.
Qed.

Lemma dtype_eqb_eq (a b : dtype) : dtype_eqb a b = true <-> a = b.
Proof.
  destruct a, b; simpl; split; intros H;
    try reflexivity; try discriminate H.
  - apply String.eqb_eq in H. now subst.
  - injection H as ->. apply String.eqb_refl.
  - apply andb_prop in H as [H1 H2].
    apply String.eqb_eq in H1, H2. now subst.
  - injection H as -> ->. now rewrite !String.eqb_refl.
Qed.

(** [to_sqla] on a floating-kind column, as the code decides it. *)
Lemma floating_branch (column : Series) (w : World) :
  kind_of column = "floating" ->
  to_sqla column w =
  (inr (Ty (if dtype_eqb (s_dtype column) float32
            then Float 23 else Float 53)), w).
Proof.
  intros Hk.
  rewrite (to_sqla_translate column "floating" w Hk eq_refl).
  unfold translate. rewrite translation_floating. simpl.
  unfold dtype_eq_str. simpl. now destruct (dtype_eqb _ _).
Qed.

(** C7, amended. For every floating-kind column: storage of the numpy
    dtype float32 gives [Float(precision=23)], single precision; every
    other storage -- 64-bit, 16-bit, object, and the nullable Float32,
    whose 32-bit width the test on the name does not see -- gives
    [Float(precision=53)], double precision. *)
Theorem C7_floating_precision (column : Series) (w : World) :
  kind_of column = "floating" ->
  (s_dtype column = float32 ->
   to_sqla column w = (inr (Ty (Float 23)), w))
  /\ (s_dtype column <> float32 ->
      to_sqla column w = (inr (Ty (Float 53)), w)).
Proof.
  intros Hk. rewrite (floating_branch column w Hk). split.
  - intros ->. reflexivity.
  - intros Hne. destruct (dtype_eqb _ _) eqn:E; [|reflexivity].
    apply dtype_eqb_eq in E. contradiction.
Qed.

Lemma C7_floating_precision_witness :
  kind_of float32_column = "floating"
  /\ to_sqla float32_column strict_legacy_world
     = (inr (Ty (Float 23)), strict_legacy_world)
  /\ kind_of float64_column = "floating"
  /\ to_sqla float64_column strict_legacy_world
     = (inr (Ty (Float 53)), strict_legacy_world).
Proof.
  split; [reflexivity|]. split.
  - apply (C7_floating_precision float32_column strict_legacy_world);
      reflexivity.
  - split; [reflexivity|].
    apply (C7_floating_precision float64_column strict_legacy_world);
      [reflexivity | discriminate].
Defined.

(** C7 as stated fails on the nullable Float32 dtype: the column is of
    floating kind and its storage is 32 bits wide, but its dtype does not
    compare equal to ['float32'] and the type returned is the double
    precision one. *)
Lemma C7_counterexample :
  well_formed nullable_float32_column = true
  /\ kind_of nullable_float32_column = "floating"
  /\ itemsize_bits (s_dtype nullable_float32_column) = Some 32
  /\ to_sqla nullable_float32_column quiet_world
     = (inr (Ty (Float 53)), quiet_world)
  /\ to_sqla nullable_float32_column quiet_world
     <> (inr (Ty (Float 23)), quiet_world).
Proof. repeat split; try reflexivity. discriminate. Qed.

(** [to_sqla] on an integer-kind column, as the code decides it. *)
Lemma integer_branch (column : Series) (w : World) :
  kind_of column = "integer" ->
  to_sqla column w =
  (inr (Ty (if dtype_eqb (s_dtype column) int32 then Integer else BigInteger)),
   w).
Proof.
  intros Hk.
  rewrite (to_sqla_translate column "integer" w Hk eq_refl).
  unfold translate. rewrite translation_integer. simpl.
  unfold dtype_eq_str. simpl. now destruct (dtype_eqb _ _).
Qed.

(** C6, amended. For every integer-kind column: signed 32-bit storage
    (int32) gives [Integer]; every other storage -- wider, narrower,
    unsigned or object -- gives [BigInteger]; and the type returned never
    has fewer bits than a fixed-width storage has. *)
Theorem C6_integer_width (column : Series) (w : World) :
  kind_of column = "integer" ->
  (s_dtype column = int32 -> to_sqla column w = (inr (Ty Integer), w))
  /\ (s_dtype column <> int32 -> to_sqla column w = (inr (Ty BigInteger), w))
  /\ (forall bits, itemsize_bits (s_dtype column) = Some bits ->
      exists t tbits,
        to_sqla column w = (inr (Ty t), w)
        /\ integer_bits t = Some tbits /\ bits <= tbits).
Proof.
  intros Hk. rewrite (integer_branch column w Hk).
  split; [|split].
  - intros ->. reflexivity.
  - intros Hne. destruct (dtype_eqb _ _) eqn:E; [|reflexivity].
    apply dtype_eqb_eq in E. contradiction.
  - intros bits Hbits.
    destruct (dtype_eqb _ _) eqn:E.
    + apply dtype_eqb_eq in E. rewrite E in Hbits. injection Hbits as <-.
      exists Integer, 32. repeat split. lia.
    + exists BigInteger, 64. repeat split.
      destruct (s_dtype column); simpl in Hbits; try discriminate Hbits;
        injection Hbits as <-; lia.
Qed.

Lemma C6_integer_width_witness :
  to_sqla int32_column quiet_world = (inr (Ty Integer), quiet_world)
  /\ to_sqla int64_column quiet_world = (inr (Ty BigInteger), quiet_world).
Proof.
  split.
  - apply (C6_integer_width int32_column quiet_world); reflexivity.
  - apply (C6_integer_width int64_column quiet_world);
      [reflexivity | discriminate].
Defined.

(** C6 as stated fails on unsigned 32-bit storage: the width is 32 bits,
    the type returned is [BigInteger]. *)
Lemma C6_counterexample :
  well_formed uint32_column = true
  /\ kind_of uint32_column = "integer"
  /\ itemsize_bits (s_dtype uint32_column) = Some 32
  /\ to_sqla uint32_column quiet_world = (inr (Ty BigInteger), quiet_world)
  /\ to_sqla uint32_column quiet_world <> (inr (Ty Integer), quiet_world).
Proof. repeat split; try reflexivity. discriminate. Qed.

(** C2, first half: a complex-kind column is refused, not made text. *)
Lemma complex_refused (column : Series) (w : World) :
  kind_of column = "complex" ->
  to_sqla column w = (inl UnsupportedKindError, w).
Proof.
  intros Hk.
  rewrite (to_sqla_translate column "complex" w Hk eq_refl).
  unfold translate. now rewrite translation_complex.
Qed.

(** C5, amended. For every column whose values are all null and whose
    storage is object, [to_sqla] returns [Text]. *)
Theorem C5_all_null_object (column : Series) (w : World) :
  all_null column = true ->
  s_dtype column = object_ ->
  to_sqla column w = (inr (Ty Text), w).
Proof.
  intros Hnull Hobj.
  assert (Hk : kind_of column = "empty").
  { unfold kind_of, inferred_kind, notna_filter. simpl. rewrite Hobj. simpl.
    now rewrite (all_null_filtered _ Hnull). }
  rewrite (to_sqla_translate column "empty" w Hk eq_refl).
  unfold translate. now rewrite translation_empty.
Qed.

Lemma C5_all_null_object_witness :
  to_sqla all_none_column strict_legacy_world
  = (inr (Ty Text), strict_legacy_world).
Proof.
  apply (C5_all_null_object all_none_column strict_legacy_world); reflexivity.
Defined.

(** C5 as stated fails on an all-NaN float64 column: nothing is left after
    the null filter, yet the storage still says floating. *)
Lemma C5_counterexample :
  well_formed all_nan_column = true
  /\ all_null all_nan_column = true
  /\ non_null all_nan_column = []
  /\ to_sqla all_nan_column quiet_world = (inr (Ty (Float 53)), quiet_world)
  /\ to_sqla all_nan_column quiet_world <> (inr (Ty Text), quiet_world).
Proof. repeat split; try reflexivity. discriminate. Qed.

(** ** Datetime columns *)

Lemma all_eq_zero_hours (vs : list scalar) :
  all_eq_zero (List.map hour_of vs) = forallb hour_is_zero vs.
Proof.
  induction vs as [|v vs IH]; simpl; [reflexivity|].
  rewrite <- IH. now destruct v.
Qed.

(** On naive datetime64 storage the hour of each value decides, and
    nothing else of the time of day is looked at. *)
Lemma naive_storage_by_hour (column : Series) (w : World) :
  s_dtype column = datetime64_ns ->
  to_sqla column w =
  (inr (Ty (if forallb hour_is_zero (non_null column) then Date else DateTime)),
   w).
Proof.
  intros Hd. rewrite to_sqla_dispatch.
  unfold datetime_kind, kind_of, inferred_kind. simpl. rewrite Hd. simpl.
  unfold datetime_branch, try_except_AttributeError, dt_tz, dt_hour, bind.
  simpl. rewrite Hd. simpl. rewrite all_eq_zero_hours.
  unfold non_null. simpl. now destruct (forallb _ _).
Qed.

Lemma midnight_hour_zero (v : scalar) :
  at_midnight v = true -> hour_is_zero v = true.
Proof.
  destruct v; simpl; try discriminate.
  intros H. repeat (apply andb_prop in H as [H _]). exact H.
Qed.

(** The half of C3 the code keeps, on datetime64 storage: all midnight
    gives [Date], an hour other than zero gives [DateTime]. *)
Lemma naive_storage_midnight (column : Series) (w : World) :
  s_dtype column = datetime64_ns ->
  forallb at_midnight (non_null column) = true ->
  to_sqla column w = (inr (Ty Date), w).
Proof.
  intros Hd Hmid. rewrite (naive_storage_by_hour column w Hd).
  replace (forallb hour_is_zero (non_null column)) with true; [reflexivity|].
  symmetry. apply forallb_forall. intros v Hv.
  apply midnight_hour_zero.
  now apply (proj1 (forallb_forall _ _) Hmid).
Qed.

Lemma naive_storage_late_hour (column : Series) (w : World) :
  s_dtype column = datetime64_ns ->
  existsb (fun v => negb (hour_is_zero v)) (non_null column) = true ->
  to_sqla column w = (inr (Ty DateTime), w).
Proof.
  intros Hd Hlate. rewrite (naive_storage_by_hour column w Hd).
  destruct (forallb _ _) eqn:E; [|reflexivity].
  apply existsb_exists in Hlate as (v & Hv & Hneg).
  rewrite (proj1 (forallb_forall _ _) E v Hv) in Hneg. discriminate Hneg.
Qed.

(** C3, the code at the failing input. A naive datetime64 column whose
    values are all 00:30:00 is datetime-kind, carries no timezone and has
    a value that is not at midnight; [to_sqla] returns [Date] all the
    same, where the claim says [DateTime]. *)
Theorem C3_half_past_midnight_is_date (w : World) :
  well_formed half_past_midnight_column = true
  /\ datetime_kind half_past_midnight_column = true
  /\ existsb carries_tz (non_null half_past_midnight_column) = false
  /\ existsb (fun v => negb (at_midnight v))
       (non_null half_past_midnight_column) = true
  /\ to_sqla half_past_midnight_column w = (inr (Ty Date), w).
Proof.
  repeat split; try reflexivity.
  now rewrite (naive_storage_by_hour half_past_midnight_column w eq_refl).
Qed.

(** Naive storage holds no value with a timezone. *)
Lemma naive_storage_no_tz (vs : list scalar) :
  forallb (conforms datetime64_ns) vs = true ->
  existsb carries_tz (List.filter (fun v => negb (isna v)) vs) = false.
Proof.
  induction vs as [|v vs IH]; simpl; [reflexivity|].
  intros [Hv Hvs]%andb_prop.
  destruct v; simpl in *; try discriminate Hv; auto.
  destruct (tzinfo d); [discriminate Hv|]. simpl. auto.
Qed.

(** The part of C4 the code keeps: on datetime64 storage, a datetime-kind
    column in which some non-null value carries timezone information is
    typed [TIMESTAMP(timezone=True)], whatever the times of day are,
    midnight included. *)
Lemma aware_storage_timestamp (column : Series) (w : World) :
  datetime64_storage (s_dtype column) = true ->
  well_formed column = true ->
  existsb carries_tz (non_null column) = true ->
  datetime_kind column = true
  /\ to_sqla column w = (inr (Ty (TIMESTAMP true)), w).
Proof.
  intros Hst Hwf Htz.
  unfold well_formed in Hwf. unfold non_null in Htz. simpl in Htz.
  destruct (s_dtype column) eqn:Hd; try discriminate Hst.
  - rewrite (naive_storage_no_tz _ Hwf) in Htz. discriminate Htz.
  - split.
    + unfold datetime_kind, kind_of, inferred_kind. simpl. now rewrite Hd.
    + rewrite to_sqla_dispatch.
      unfold datetime_kind, kind_of, inferred_kind. simpl. rewrite Hd. simpl.
      unfold datetime_branch, try_except_AttributeError, dt_tz, bind.
      simpl. now rewrite Hd.
Qed.

Example utc_midnights_are_timestamps :
  forallb at_midnight (non_null utc_midnight_column) = true
  /\ datetime_kind utc_midnight_column = true
  /\ to_sqla utc_midnight_column strict_legacy_world
     = (inr (Ty (TIMESTAMP true)), strict_legacy_world).
Proof.
  split; [reflexivity|].
  apply (aware_storage_timestamp utc_midnight_column strict_legacy_world);
    reflexivity.
Qed.

(** C4, the code at the failing input. Timestamps of two zones are
    stored as object: the kind is ['datetime'], which line 42 lists, and
    every value carries timezone information; but [.dt] does not exist on
    object storage, the [except AttributeError] fallback reads
    [column.tz], which no Series has, and [to_sqla] ends in
    AttributeError where the claim says TIMESTAMP(timezone=True). *)
Theorem C4_two_zone_column_raises (w : World) :
  well_formed two_zone_column = true
  /\ datetime_kind two_zone_column = true
  /\ forallb carries_tz (non_null two_zone_column) = true
  /\ to_sqla two_zone_column w
     = (inl (AttributeError "'Series' object has no attribute 'tz'"), w).
Proof.
  repeat split; try reflexivity.
  now rewrite (to_sqla_run two_zone_column w).
Qed.

(** ** Names up to case *)

Lemma is_upper_spec (n : N) :
  is_upper n = true <->
  ((65 <= n /\ n <= 90) \/ (192 <= n /\ n <= 222 /\ n <> 215))%N.
Proof.
  unfold is_upper.
  rewrite orb_true_iff, !andb_true_iff, negb_true_iff, !N.leb_le, N.eqb_neq.
  tauto.
Qed.

Ltac upper_facts :=
  repeat match goal with
    | H : is_upper _ = true |- _ => apply is_upper_spec in H
    | H : is_upper _ = false |- _ =>
        apply not_true_iff_false in H; rewrite is_upper_spec in H
    end.

Lemma lower_char_N (c : ascii) :
  N_of_ascii (lower_char c) = lowerN (N_of_ascii c).
Proof.
  unfold lower_char, lowerN.
  destruct (is_upper (N_of_ascii c)) eqn:E; [|reflexivity].
  apply N_ascii_embedding. upper_facts. lia.
Qed.

Lemma N_of_ascii_inj (a b : ascii) : N_of_ascii a = N_of_ascii b -> a = b.
Proof.
  intros H. rewrite <- (ascii_N_embedding a), <- (ascii_N_embedding b).
  now rewrite H.
Qed.

Lemma lowerN_eq (n m : N) :
  lowerN n = lowerN m <->
  n = m \/ (is_upper n = true /\ m = (n + 32)%N)
  \/ (is_upper m = true /\ n = (m + 32)%N).
Proof.
  unfold lowerN.
  destruct (is_upper n) eqn:En, (is_upper m) eqn:Em;
    pose proof En as En'; pose proof Em as Em'; upper_facts;
    split; intros H; try lia.
Qed.

Lemma lower_char_eq (a b : ascii) :
  lower_char a = lower_char b <-> same_letter a b.
Proof.
  unfold same_letter. split.
  - intros H. apply (f_equal N_of_ascii) in H.
    rewrite !lower_char_N in H. apply lowerN_eq in H.
    destruct H as [H|H]; [left; now apply N_of_ascii_inj | now right].
  - intros H. apply N_of_ascii_inj. rewrite !lower_char_N.
    apply lowerN_eq. destruct H as [->|H]; [now left | now right].
Qed.

(** [a.lower() == b.lower()] is equality up to the case of letters. *)
Lemma lower_eq (s t : string) :
  lower s = lower t <-> eq_ignoring_case s t.
Proof.
  revert t. induction s as [|a s IH]; intros [|b t]; simpl; split; intros H;
    try discriminate H; try (now constructor); try (now inversion H).
  - injection H as Hc Hs. constructor; [now apply lower_char_eq | now apply IH].
  - inversion H as [|a' b' s' t' Hc Hs]; subst.
    f_equal; [now apply lower_char_eq | now apply IH].
Qed.

Lemma py_in_spec (x : string) (xs : list string) :
  py_in x xs = true <-> In x xs.
Proof.
  unfold py_in. rewrite existsb_exists. split.
  - intros (y & Hy & E). apply String.eqb_eq in E. now subst.
  - intros H. exists x. split; [exact H | apply String.eqb_refl].
Qed.

(** The primary-key test of the loop. *)
Lemma is_pk_spec (name : string) (pk : list string) :
  py_in (lower name) (List.map lower pk) = true <->
  exists s, In s pk /\ eq_ignoring_case name s.
Proof.
  rewrite py_in_spec, in_map_iff. split.
  - intros (s & E & Hs). exists s. split; [exact Hs|].
    apply lower_eq. now symmetry.
  - intros (s & Hs & E). exists s. split; [|exact Hs].
    symmetry. now apply lower_eq.
Qed.

(** ** The loop of [reflect] *)

Lemma to_sqla_inferred (column : Series) (w : World) :
  to_sqla column w = (inferred column, w).
Proof. apply to_sqla_run. Qed.

Lemma iloc_here (pre : DataFrame) (name : string) (column : Series)
    (post : DataFrame) (w : World) :
  iloc (pre ++ (name, column) :: post)%list (List.length pre) w = (inr column, w).
Proof.
  unfold iloc.
  rewrite nth_error_app2 by lia. now rewrite Nat.sub_diag.
Qed.

(** The loop computes [collect] and leaves the world alone. *)
Lemma reflect_loop_collect (dtypes : gmap string pyobj) (pk : list string)
    (post pre : DataFrame) (acc : list triple) (w : World) :
  reflect_loop (pre ++ post)%list dtypes pk
    (enumerate_from (List.length pre) (columns post)) acc w
  = (match collect dtypes pk post with
     | inl e => inl e
     | inr ts => inr (acc ++ ts)%list
     end, w).
Proof.
  revert pre acc. induction post as [|[name column] post IH]; intros pre acc.
  - simpl. unfold ret. now rewrite app_nil_r.
  - simpl.
    rewrite (bind_run_ok _ _ _ _ _ (iloc_here pre name column post w)).
    unfold entry_for. simpl.
    destruct (inferred column) as [e|t] eqn:Hinf.
    + apply bind_run_raise. rewrite to_sqla_inferred. now rewrite Hinf.
    + rewrite (bind_run_ok _ _ t w w)
        by (rewrite to_sqla_inferred; now rewrite Hinf).
      specialize (IH (pre ++ [(name, column)])%list).
      rewrite <- app_assoc in IH. simpl in IH.
      rewrite length_app in IH. simpl in IH.
      rewrite Nat.add_1_r in IH. rewrite IH.
      destruct (collect dtypes pk post); [reflexivity|].
      now rewrite <- app_assoc.
Qed.

Lemma schema_definition_collect (df : DataFrame) (pk : option pk_arg)
    (dtypes : option (gmap string pyobj)) (w : World) :
  schema_definition df pk dtypes w
  = (collect (default ∅ dtypes) (normalise_pk pk) df, w).
Proof.
  unfold schema_definition, enumerate.
  rewrite (reflect_loop_collect _ _ df [] [] w).
  now destruct (collect _ _ df).
Qed.

(** [reflect], end to end. *)
Lemma reflect_run (df : DataFrame) (table_name : string) (bind_ : Engine)
    (pk : option pk_arg) (dtypes : option (gmap string pyobj))
    (as_sql_stmt : bool) (w : World) :
  reflect df table_name bind_ pk dtypes as_sql_stmt w
  = (match collect (default ∅ dtypes) (normalise_pk pk) df with
     | inl e => inl e
     | inr ts =>
         inr (if as_sql_stmt
              then AsStatement (dialect_create_table bind_ (table_of table_name ts))
              else AsTable (table_of table_name ts))
     end, w).
Proof.
  unfold reflect.
  destruct (collect (default ∅ dtypes) (normalise_pk pk) df) as [e|ts] eqn:Hc.
  - apply bind_run_raise. now rewrite schema_definition_collect, Hc.
  - rewrite (bind_run_ok _ _ ts w w)
      by now rewrite schema_definition_collect, Hc.
    unfold new_Table. simpl. now destruct as_sql_stmt.
Qed.

Lemma schema_of_table_of (table_name : string) (ts : list triple) :
  schema_of (table_of table_name ts) = ts.
Proof.
  unfold schema_of, table_of. simpl. rewrite List.map_map.
  rewrite <- (List.map_id ts) at 2. apply List.map_ext.
  now intros [[name type] is_pk].
Qed.

(** ** What the loop yields *)

(** A column on which inference fails makes the whole loop fail, whether
    or not [dtypes] names the column. *)
Lemma collect_fails (dtypes : gmap string pyobj) (pk : list string)
    (df : DataFrame) (name : string) (column : Series) (e : exception) :
  In (name, column) df -> inferred column = inl e ->
  exists e', collect dtypes pk df = inl e'.
Proof.
  intros Hin Hinf. induction df as [|nc df IH]; [contradiction|].
  simpl. destruct Hin as [->|Hin].
  - unfold entry_for. simpl. rewrite Hinf. eauto.
  - destruct (entry_for dtypes pk nc); [eauto|].
    destruct (IH Hin) as [e' ->]. eauto.
Qed.

(** The exception that comes out is that of the first column to fail. *)
Lemma collect_first_failure (dtypes : gmap string pyobj) (pk : list string)
    (pre : DataFrame) (name : string) (column : Series) (post : DataFrame)
    (e : exception) :
  Forall (fun nc => exists t, inferred (snd nc) = inr t) pre ->
  inferred column = inl e ->
  collect dtypes pk (pre ++ (name, column) :: post)%list = inl e.
Proof.
  intros Hpre Hinf. induction Hpre as [|nc pre [t Ht] _ IH]; simpl.
  - unfold entry_for. simpl. now rewrite Hinf.
  - unfold entry_for at 1. rewrite Ht. now rewrite IH.
Qed.

(** On success there is one triple per column, in order, each carrying
    the column's name, the override or else the inferred type, and the
    primary-key test. *)
Lemma collect_lookup (dtypes : gmap string pyobj) (pk : list string)
    (df : DataFrame) (ts : list triple) :
  collect dtypes pk df = inr ts ->
  List.length ts = List.length df
  /\ forall (i : nat) name type is_pk,
       ts !! i = Some (name, type, is_pk) ->
       exists column t,
         df !! i = Some (name, column)
         /\ inferred column = inr t
         /\ type = default t (dtypes !! name)
         /\ is_pk = py_in (lower name) (List.map lower pk).
Proof.
  revert ts. induction df as [|[n c] df IH]; intros ts; simpl.
  - intros [= <-]. split; [reflexivity|]. intros i ? ? ? H.
    now rewrite lookup_nil in H.
  - unfold entry_for. simpl.
    destruct (inferred c) as [e|t] eqn:Hinf; [discriminate|].
    destruct (collect dtypes pk df) as [e|ts'] eqn:Hc; [discriminate|].
    intros [= <-]. destruct (IH ts' eq_refl) as [Hlen Hall].
    split; [simpl; now rewrite Hlen|].
    intros [|i] name type is_pk H; simpl in H.
    + injection H as <- <- <-. exists c, t. now repeat split.
    + apply (Hall i name type is_pk H).
Qed.

Lemma columns_lookup (df : DataFrame) (i : nat) (name : string)
    (column : Series) :
  df !! i = Some (name, column) -> columns df !! i = Some name.
Proof.
  revert i. induction df as [|nc df IH]; intros [|i]; simpl;
    try discriminate.
  - now intros [= ->].
  - apply IH.
Qed.

Lemma reflect_table_inv (df : DataFrame) (table_name : string)
    (bind_ : Engine) (pk : option pk_arg)
    (dtypes : option (gmap string pyobj)) (w w' : World) (tbl : Table) :
  reflect df table_name bind_ pk dtypes false w = (inr (AsTable tbl), w') ->
  collect (default ∅ dtypes) (normalise_pk pk) df = inr (schema_of tbl)
  /\ w' = w.
Proof.
  rewrite reflect_run.
  destruct (collect _ _ df) as [e|ts]; [discriminate|].
  intros [= <- <-]. now rewrite schema_of_table_of.
Qed.

(** When [reflect] does return, an overridden column carries the
    override. *)
Lemma override_wins (df : DataFrame) (table_name : string) (bind_ : Engine)
    (pk : option pk_arg) (dtypes : gmap string pyobj) (w w' : World)
    (tbl : Table) (i : nat) name type is_pk (t : pyobj) :
  reflect df table_name bind_ pk (Some dtypes) false w
  = (inr (AsTable tbl), w') ->
  schema_of tbl !! i = Some (name, type, is_pk) ->
  dtypes !! name = Some t ->
  type = t.
Proof.
  intros Hr Hi Ht. apply reflect_table_inv in Hr as [Hc _].
  destruct (collect_lookup _ _ _ _ Hc) as [_ Hall].
  destruct (Hall i name type is_pk Hi) as (c & t0 & _ & _ & -> & _).
  simpl. now rewrite Ht.
Qed.

(** But [reflect] returns only if inference succeeds on every column,
    overridden or not. *)
Lemma override_needs_inference (df : DataFrame) (table_name : string)
    (bind_ : Engine) (pk : option pk_arg)
    (dtypes : option (gmap string pyobj)) (as_sql_stmt : bool) (w : World)
    (name : string) (column : Series) (e : exception) :
  In (name, column) df -> inferred column = inl e ->
  exists e', reflect df table_name bind_ pk dtypes as_sql_stmt w = (inl e', w).
Proof.
  intros Hin Hinf. rewrite reflect_run.
  destruct (collect_fails (default ∅ dtypes) (normalise_pk pk) df
              name column e Hin Hinf) as [e' ->].
  eauto.
Qed.

(** ** The claims about [reflect] *)

(** C1, the code at the failing input. The frame has a complex column
    [z] and [dtypes] gives [z] the type [Text]; [reflect] still runs
    [to_sqla] on [z] and fails with its exception, where the claim says
    the call succeeds with [Text] for [z]. *)
Theorem C1_override_still_infers (bind_ : Engine) (w : World) :
  text_override !! "z" = Some (Ty Text)
  /\ In ("z", complex_column) complex_frame
  /\ reflect complex_frame "TMP_dataframe" bind_ None (Some text_override)
       false w
     = (inl UnsupportedKindError, w).
Proof.
  split; [reflexivity|]. split; [right; now left|].
  rewrite reflect_run. reflexivity.
Qed.

(** C2. A column of complex kind makes [to_sqla] fail with the exception
    the specification calls UnsupportedKindError instead of falling back
    to [Text]; and [reflect] on a frame that contains such a column fails
    as a whole, with that very exception when the columns before it are
    inferable (so that the loop gets to it). *)
Theorem C2_complex_unsupported (column : Series) :
  kind_of column = "complex" ->
  (forall w, to_sqla column w = (inl UnsupportedKindError, w))
  /\ (forall pre name post table_name bind_ pk dtypes as_sql_stmt w,
        exists e,
          reflect (pre ++ (name, column) :: post)%list table_name bind_ pk
            dtypes as_sql_stmt w = (inl e, w)
          /\ (Forall (fun nc => exists t, inferred (snd nc) = inr t) pre ->
              e = UnsupportedKindError)).
Proof.
  intros Hk.
  assert (Hinf : inferred column = inl UnsupportedKindError).
  { unfold inferred. now rewrite (complex_refused column quiet_world Hk). }
  split; [intros w; now apply complex_refused|].
  intros pre name post table_name bind_ pk dtypes as_sql_stmt w.
  rewrite reflect_run.
  destruct (collect_fails (default ∅ dtypes) (normalise_pk pk)
              (pre ++ (name, column) :: post)%list name column _
              (in_elt _ _ _) Hinf) as [e He].
  exists e. rewrite He. split; [reflexivity|].
  intros Hpre.
  rewrite (collect_first_failure _ _ pre name column post _ Hpre Hinf) in He.
  now injection He as <-.
Qed.

Lemma C2_complex_unsupported_witness :
  to_sqla complex_column strict_legacy_world
  = (inl UnsupportedKindError, strict_legacy_world)
  /\ exists e,
       reflect complex_frame "TMP_dataframe" sqlite None None true
         strict_legacy_world = (inl e, strict_legacy_world)
       /\ e = UnsupportedKindError.
Proof.
  destruct (C2_complex_unsupported complex_column eq_refl) as [H1 H2].
  split; [apply H1|].
  destruct (H2 [("id", int64_column)] "z" [] "TMP_dataframe" sqlite None None
              true strict_legacy_world) as (e & He & Hfirst).
  exists e. split; [exact He|].
  apply Hfirst. repeat constructor. now exists (Ty BigInteger).
Defined.

(** C8. The primary-key flag of every column of the schema is true
    exactly when the column's name equals, up to the case of letters, one
    of the names passed as [pk]. *)
Theorem C8_pk_case_insensitive (df : DataFrame) (table_name : string)
    (bind_ : Engine) (pk : option pk_arg)
    (dtypes : option (gmap string pyobj)) (w w' : World) (tbl : Table) :
  reflect df table_name bind_ pk dtypes false w = (inr (AsTable tbl), w') ->
  List.length (schema_of tbl) = List.length df
  /\ forall (i : nat) name type is_pk,
       schema_of tbl !! i = Some (name, type, is_pk) ->
       columns df !! i = Some name
       /\ (is_pk = true <->
           exists s, In s (normalise_pk pk) /\ eq_ignoring_case name s).
Proof.
  intros Hr. apply reflect_table_inv in Hr as [Hc _].
  destruct (collect_lookup _ _ _ _ Hc) as [Hlen Hall].
  split; [exact Hlen|].
  intros i name type is_pk Hi.
  destruct (Hall i name type is_pk Hi) as (c & t & Hdf & _ & _ & ->).
  split.
  - now apply (columns_lookup df i name c).
  - apply is_pk_spec.
Qed.

Lemma C8_pk_case_insensitive_witness :
  exists tbl,
    reflect dates_frame "TMP_dataframe" sqlite
      (Some (PkList ["Dates_Not_Null"])) None false quiet_world
    = (inr (AsTable tbl), quiet_world)
    /\ schema_of tbl
       = [("dates_not_null", Ty Date, true);
          ("ints_not_null", Ty BigInteger, false)]
    /\ (exists s, In s ["Dates_Not_Null"]
                  /\ eq_ignoring_case "dates_not_null" s)
    /\ ~ (exists s, In s ["Dates_Not_Null"]
                    /\ eq_ignoring_case "ints_not_null" s).
Proof.
  eexists. split; [reflexivity|]. split; [reflexivity|].
  pose proof (C8_pk_case_insensitive dates_frame "TMP_dataframe" sqlite
                (Some (PkList ["Dates_Not_Null"])) None quiet_world
                quiet_world _ eq_refl) as [_ Hall].
  split.
  - apply (Hall 0%nat "dates_not_null" (Ty Date) true eq_refl). reflexivity.
  - intros H.
    apply (Hall 1%nat "ints_not_null" (Ty BigInteger) false eq_refl) in H.
    discriminate H.
Defined.

(** C9. Two calls of [reflect] with the same arguments, one after the
    other, end the same way -- the same table, hence the same sequence of
    (name, type, is-primary-key) triples, the same statement text, or the
    same exception; the call leaves the interpreter state as it found it
    and its outcome does not depend on that state. *)
Theorem C9_reflect_deterministic (df : DataFrame) (table_name : string)
    (bind_ : Engine) (pk : option pk_arg)
    (dtypes : option (gmap string pyobj)) (as_sql_stmt : bool) (w : World) :
  let call := reflect df table_name bind_ pk dtypes as_sql_stmt in
  let first := call w in
  let second := call (snd first) in
  fst second = fst first
  /\ snd second = snd first
  /\ snd first = w
  /\ forall w2, fst (call w2) = fst first.
Proof.
  cbv zeta. rewrite (reflect_run df table_name bind_ pk dtypes as_sql_stmt w).
  cbn [fst snd]. rewrite reflect_run. cbn [fst snd].
  repeat split. intros w2. now rewrite reflect_run.
Qed.

(** C10. A single string as [pk] is taken as the one-element list of
    that string. *)
Theorem C10_pk_string_is_singleton (df : DataFrame) (table_name : string)
    (bind_ : Engine) (s : string) (dtypes : option (gmap string pyobj))
    (as_sql_stmt : bool) (w : World) :
  normalise_pk (Some (PkStr s)) = normalise_pk (Some (PkList [s]))
  /\ reflect df table_name bind_ (Some (PkStr s)) dtypes as_sql_stmt w
     = reflect df table_name bind_ (Some (PkList [s])) dtypes as_sql_stmt w.
Proof. split; reflexivity. Qed.

(** The worked example of the specification. *)
Example example_frame_schema :
  schema_definition example_frame (Some (PkList ["id"])) None quiet_world
  = (inr [ ("id", Ty BigInteger, true); ("amount", Ty (Float 23), false);
           ("name", Ty Text, false); ("created", Ty Date, false) ],
     quiet_world).
Proof. reflexivity. Qed.

(** * Further properties *)

(** ** The [translation] table *)

Lemma translation_lookup (k : string) (v : pyobj) :
  translation !! k = Some v ->
  (k = "timedelta64" /\ v = Ty BigInteger)
  \/ (k = "floating" /\ v = Str "floating")
  \/ (k = "integer" /\ v = Str "integer")
  \/ (k = "boolean" /\ v = Ty Boolean)
  \/ (k = "date" /\ v = Ty Date)
  \/ (k = "time" /\ v = Ty Time)
  \/ (k = "complex" /\ v = Exc UnsupportedKindError).
Proof.
  intros H. unfold translation in H. apply elem_of_list_to_map_2 in H.
  repeat (apply elem_of_cons in H as [H|H];
          [injection H as -> ->; tauto|]).
  now apply elem_of_nil in H.
Qed.

Lemma translation_missing (k : string) :
  ~ In k translation_keys -> translation !! k = None.
Proof.
  intros Hk. destruct (translation !! k) as [v|] eqn:E; [|reflexivity].
  exfalso. apply Hk.
  destruct (translation_lookup k v E)
    as [[-> _]|[[-> _]|[[-> _]|[[-> _]|[[-> _]|[[-> _]|[-> _]]]]]]];
    simpl; tauto.
Qed.

(** What [translate] can do: return a column type, or raise the one
    exception of the table. *)
Lemma translate_outcome (column : Series) (k : string) (w : World) :
  (k <> "complex" /\ exists t, translate column k w = (inr (Ty t), w))
  \/ (k = "complex" /\ translate column k w = (inl UnsupportedKindError, w)).
Proof.
  unfold translate. destruct (translation !! k) as [v|] eqn:E.
  - destruct (translation_lookup k v E)
      as [[-> ->]|[[-> ->]|[[-> ->]|[[-> ->]|[[-> ->]|[[-> ->]|[-> ->]]]]]]];
      try (left; split; [discriminate | eexists; reflexivity]);
      [| |right; now split].
    + left. split; [discriminate|]. simpl.
      destruct (dtype_eq_str _ _); eexists; reflexivity.
    + left. split; [discriminate|]. simpl.
      destruct (dtype_eq_str _ _); eexists; reflexivity.
  - left. split; [|eexists; reflexivity].
    intros ->. rewrite translation_complex in E. discriminate E.
Qed.

(** What the datetime branch can do. *)
Lemma datetime_branch_outcome (column : Series) (w : World) :
  (datetime64_storage (s_dtype column) = true
   /\ exists t, datetime_branch column w = (inr (Ty t), w))
  \/ (datetime64_storage (s_dtype column) = false
      /\ datetime_branch column w
         = (inl (AttributeError "'Series' object has no attribute 'tz'"), w)).
Proof.
  unfold datetime_branch, try_except_AttributeError, dt_tz, Series_tz,
    dt_hour, bind, ret, raise.
  destruct (s_dtype column); simpl; try (right; now split); left;
    (split; [reflexivity|]).
  - destruct (all_eq_zero _); eexists; reflexivity.
  - eexists; reflexivity.
Qed.

(** ** [to_sqla]: what comes out *)

(** X1. Whatever the column, a call of [to_sqla] that returns, returns a
    column type: never the string placeholder of the table, never an
    exception object. *)
Theorem to_sqla_returns_column_type (column : Series) (w w' : World)
    (r : pyobj) :
  to_sqla column w = (inr r, w') -> is_column_type r = true.
Proof.
  rewrite to_sqla_dispatch. destruct (datetime_kind column).
  - destruct (datetime_branch_outcome (notna_filter column) w)
      as [[_ [t ->]]|[_ ->]]; [now intros [= <- _] | discriminate].
  - destruct (translate_outcome (notna_filter column) (kind_of column) w)
      as [[_ [t ->]]|[_ ->]]; [now intros [= <- _] | discriminate].
Qed.

Lemma to_sqla_returns_column_type_witness :
  is_column_type (Ty (Float 23)) = true.
Proof.
  apply (to_sqla_returns_column_type float32_column quiet_world quiet_world).
  reflexivity.
Defined.

(** The two ways [to_sqla] can fail. *)
Lemma inferred_failure_cases (column : Series) (e : exception) :
  inferred column = inl e <->
  (kind_of column = "complex" /\ e = UnsupportedKindError)
  \/ (datetime_kind column = true
      /\ datetime64_storage (s_dtype column) = false
      /\ e = AttributeError "'Series' object has no attribute 'tz'").
Proof.
  unfold inferred. rewrite to_sqla_dispatch.
  destruct (datetime_kind column) eqn:Hdt.
  - assert (Hnc : kind_of column <> "complex").
    { intros Hk. unfold datetime_kind in Hdt. rewrite Hk in Hdt.
      discriminate Hdt. }
    destruct (datetime_branch_outcome (notna_filter column) quiet_world)
      as [[Hst [t ->]]|[Hst ->]]; simpl in *; split.
    + discriminate.
    + intros [[Hk _]|(_ & Hst' & _)]; [contradiction | congruence].
    + intros [= <-]. right. now repeat split.
    + intros [[Hk _]|(_ & _ & ->)]; [contradiction | reflexivity].
  - destruct (translate_outcome (notna_filter column) (kind_of column)
                quiet_world) as [[Hnc [t ->]]|[Hk ->]]; simpl; split.
    + discriminate.
    + intros [[Hk _]|(Habs & _)]; [contradiction | discriminate Habs].
    + intros [= <-]. left. now split.
    + intros [[_ ->]|(Habs & _)]; [reflexivity | discriminate Habs].
Qed.

(** X2. [to_sqla] fails in exactly two situations: the kind is complex
    (ValueError), or the kind is a datetime kind on storage that has no
    [.dt] accessor (AttributeError).  On every other column it returns. *)
Theorem to_sqla_failures (column : Series) (e : exception) :
  inferred column = inl e <->
  (kind_of column = "complex" /\ e = UnsupportedKindError)
  \/ (datetime_kind column = true
      /\ datetime64_storage (s_dtype column) = false
      /\ e = AttributeError "'Series' object has no attribute 'tz'").
Proof. apply inferred_failure_cases. Qed.

Lemma to_sqla_failures_witness :
  inferred two_zone_column
  = inl (AttributeError "'Series' object has no attribute 'tz'")
  /\ inferred complex_column = inl UnsupportedKindError.
Proof.
  split.
  - apply (proj2 (to_sqla_failures two_zone_column _)).
    right. repeat split.
  - apply (proj2 (to_sqla_failures complex_column _)).
    left. split; reflexivity.
Defined.

(** X3. The fallback: a kind that is neither a datetime kind nor a key of
    [translation] -- strings, bytes, mixed columns and whatever else
    [infer_dtype] may answer -- is typed [Text]. *)
Theorem to_sqla_text_fallback (column : Series) (w : World) :
  datetime_kind column = false ->
  ~ In (kind_of column) translation_keys ->
  to_sqla column w = (inr (Ty Text), w).
Proof.
  intros Hdt Hk. rewrite to_sqla_dispatch, Hdt.
  unfold translate. now rewrite (translation_missing _ Hk).
Qed.

Lemma to_sqla_text_fallback_witness :
  kind_of text_column = "string"
  /\ to_sqla text_column strict_legacy_world
     = (inr (Ty Text), strict_legacy_world).
Proof.
  split; [reflexivity|].
  apply (to_sqla_text_fallback text_column strict_legacy_world);
    [reflexivity|].
  simpl. intros H. repeat (destruct H as [H|H]; [discriminate H|]).
  exact H.
Defined.

(** X4. Nulls never weigh on the type: two columns of the same storage
    with the same non-null values, in the same order, get the same
    outcome, wherever their nulls sit and however many they are. *)
Theorem to_sqla_ignores_nulls (c1 c2 : Series) (w : World) :
  s_dtype c1 = s_dtype c2 ->
  non_null c1 = non_null c2 ->
  to_sqla c1 w = to_sqla c2 w.
Proof.
  intros Hd Hv.
  assert (E : notna_filter c1 = notna_filter c2).
  { unfold non_null in Hv. unfold notna_filter in *. simpl in Hv.
    now rewrite Hd, Hv. }
  rewrite !to_sqla_dispatch. unfold datetime_kind, kind_of. now rewrite E.
Qed.

Lemma to_sqla_ignores_nulls_witness :
  to_sqla ints_with_nulls quiet_world = to_sqla ints_without_nulls quiet_world.
Proof.
  apply (to_sqla_ignores_nulls ints_with_nulls ints_without_nulls quiet_world);
    reflexivity.
Defined.

(** Without the [with] block of [to_sqla], an old pandas under a filter
    that turns warnings into errors makes [infer_dtype] raise. *)
Lemma infer_dtype_unguarded (column : Series) :
  exists msg,
    infer_dtype column strict_legacy_world
    = (inl (WarningAsError msg), strict_legacy_world).
Proof. eexists. reflexivity. Qed.

(** X5. [to_sqla] is silent and leaves no trace: whatever the warning
    filters and the pandas release, the filter list and the warnings
    shown are the same after the call as before it, and the call never
    ends in a warning raised as an error. *)
Theorem to_sqla_is_silent (column : Series) (w : World) :
  filters (snd (to_sqla column w)) = filters w
  /\ shown (snd (to_sqla column w)) = shown w
  /\ forall msg, fst (to_sqla column w) <> inl (WarningAsError msg).
Proof.
  rewrite to_sqla_world. repeat split.
  intros msg H. rewrite (to_sqla_indep column w quiet_world) in H.
  fold (inferred column) in H. apply inferred_failure_cases in H.
  destruct H as [[_ H]|(_ & _ & H)]; discriminate H.
Qed.

Lemma to_sqla_is_silent_witness :
  filters (snd (to_sqla float64_column strict_legacy_world))
  = [WarnFilter ActError Warning_]
  /\ shown (snd (to_sqla float64_column strict_legacy_world)) = [].
Proof.
  destruct (to_sqla_is_silent float64_column strict_legacy_world)
    as (Hf & Hs & _).
  split; [exact Hf | exact Hs].
Defined.

(** X6. The kinds the table maps directly: a timedelta column becomes
    [BigInteger] (a count, not an interval type), a boolean column
    [Boolean], a column of dates [Date], a column of times [Time]. *)
Theorem to_sqla_direct_kinds (column : Series) (w : World) :
  (kind_of column = "timedelta64" ->
   to_sqla column w = (inr (Ty BigInteger), w))
  /\ (kind_of column = "boolean" -> to_sqla column w = (inr (Ty Boolean), w))
  /\ (kind_of column = "date" -> to_sqla column w = (inr (Ty Date), w))
  /\ (kind_of column = "time" -> to_sqla column w = (inr (Ty Time), w)).
Proof.
  repeat split; intros Hk;
    rewrite (to_sqla_translate column _ w Hk eq_refl); reflexivity.
Qed.

Lemma to_sqla_direct_kinds_witness :
  to_sqla timedelta_column quiet_world = (inr (Ty BigInteger), quiet_world)
  /\ to_sqla bool_column quiet_world = (inr (Ty Boolean), quiet_world).
Proof.
  split.
  - apply (to_sqla_direct_kinds timedelta_column quiet_world). reflexivity.
  - apply (to_sqla_direct_kinds bool_column quiet_world). reflexivity.
Defined.

(** X7. A datetime column with nothing but nulls: on naive datetime64
    storage the test on the hours holds of no value at all and the type
    is [Date]; on timezone-aware storage it is still the timezone-aware
    TIMESTAMP. *)
Theorem to_sqla_all_null_datetime (column : Series) (w : World) :
  all_null column = true ->
  (s_dtype column = datetime64_ns -> to_sqla column w = (inr (Ty Date), w))
  /\ (forall tz, s_dtype column = datetime64_ns_tz tz ->
      to_sqla column w = (inr (Ty (TIMESTAMP true)), w)).
Proof.
  intros Hnull. split.
  - intros Hd. rewrite (naive_storage_by_hour column w Hd).
    unfold non_null, notna_filter. simpl.
    now rewrite (all_null_filtered _ Hnull).
  - intros tz Hd. rewrite to_sqla_dispatch.
    unfold datetime_kind, kind_of, inferred_kind. simpl. rewrite Hd. simpl.
    unfold datetime_branch, try_except_AttributeError, dt_tz, bind.
    simpl. now rewrite Hd.
Qed.

Lemma to_sqla_all_null_datetime_witness :
  to_sqla all_nat_column quiet_world = (inr (Ty Date), quiet_world).
Proof.
  apply (to_sqla_all_null_datetime all_nat_column quiet_world); reflexivity.
Defined.

(** X8. On every storage other than object and naive datetime64 the
    values are never looked at: the storage alone fixes the outcome. *)
Theorem to_sqla_typed_by_storage (d : dtype) (vs1 vs2 : list scalar)
    (w : World) :
  typed_by_storage d = true ->
  to_sqla (MkSeries d vs1) w = to_sqla (MkSeries d vs2) w.
Proof.
  intros Hd. rewrite !to_sqla_dispatch.
  destruct d; try discriminate Hd; reflexivity.
Qed.

Lemma to_sqla_typed_by_storage_witness :
  to_sqla int64_column quiet_world = to_sqla (MkSeries int64 []) quiet_world.
Proof.
  apply (to_sqla_typed_by_storage int64 _ [] quiet_world). reflexivity.
Defined.

(** ** [reflect]: when it returns and what it returns *)


Lemma reflect_ok_inv (df : DataFrame) (table_name : string) (bind_ : Engine)
    (pk : option pk_arg) (dtypes : option (gmap string pyobj))
    (as_sql_stmt : bool) (w w' : World) (r : reflected) :
  reflect df table_name bind_ pk dtypes as_sql_stmt w = (inr r, w') ->
  exists ts,
    collect (default ∅ dtypes) (normalise_pk pk) df = inr ts
    /\ w' = w
    /\ r = (if as_sql_stmt
            then AsStatement (dialect_create_table bind_ (table_of table_name ts))
            else AsTable (table_of table_name ts)).
Proof.
  rewrite reflect_run.
  destruct (collect _ _ df) as [e|ts]; [discriminate|].
  intros [= <- <-]. now exists ts.
Qed.

Lemma example_frame_names_distinct : NoDup (columns example_frame).
Proof.
  repeat constructor; rewrite ?elem_of_cons, ?elem_of_nil; intuition discriminate.
Defined.


Lemma no_override_is_type : overrides_are_types None.
Proof. intros name o H. simpl in H. now rewrite lookup_empty in H. Defined.


Lemma name_override_is_type : overrides_are_types (Some name_override).
Proof.
  intros name o H. simpl in H. unfold name_override in H.
  apply lookup_singleton_Some in H as [_ <-]. reflexivity.
Defined.



Lemma collect_names (dtypes : gmap string pyobj) (pk : list string)
    (df : DataFrame) (ts : list triple) :
  collect dtypes pk df = inr ts -> List.map name_of ts = columns df.
Proof.
  revert ts. induction df as [|[n c] df IH]; intros ts; simpl.
  - now intros [= <-].
  - unfold entry_for. simpl.
    destruct (inferred c); [discriminate|].
    destruct (collect dtypes pk df) as [e|ts']; [discriminate|].
    intros [= <-]. simpl. f_equal. now apply IH.
Qed.

(** X10. On a frame whose column names are distinct, with overrides
    that are column types, the table [reflect] returns has the name asked
    for, sits alone in a MetaData of its own, and has one column per
    column of the frame, under the same names in the same order (none for
    an empty frame). *)
Theorem reflect_table_shape (df : DataFrame) (table_name : string)
    (bind_ : Engine) (pk : option pk_arg)
    (dtypes : option (gmap string pyobj)) (w w' : World) (tbl : Table) :
  NoDup (columns df) ->
  overrides_are_types dtypes ->
  reflect df table_name bind_ pk dtypes false w = (inr (AsTable tbl), w') ->
  t_name tbl = table_name
  /\ t_metadata tbl = [table_name]
  /\ List.map c_name (t_columns tbl) = columns df.
Proof.
  intros _ _ H. apply reflect_ok_inv in H as (ts & Hc & _ & [= ->]).
  repeat split. simpl. rewrite List.map_map.
  rewrite <- (collect_names _ _ _ _ Hc). apply List.map_ext.
  now intros [[n t] p].
Qed.

Lemma reflect_table_shape_witness :
  exists tbl,
    reflect example_frame "TMP_dataframe" sqlite (Some (PkStr "id")) None
      false quiet_world = (inr (AsTable tbl), quiet_world)
    /\ List.map c_name (t_columns tbl) = ["id"; "amount"; "name"; "created"].
Proof.
  eexists. split; [reflexivity|].
  apply (reflect_table_shape example_frame "TMP_dataframe" sqlite
           (Some (PkStr "id")) None quiet_world quiet_world _
           example_frame_names_distinct no_override_is_type eq_refl).
Defined.

(** X11. On a frame whose column names are distinct, with overrides
    that are column types, the type of every column of the table is the
    entry of [dtypes] under the column's name when there is one, and
    otherwise the type [to_sqla] infers for the column. *)
Theorem reflect_override_or_inferred (df : DataFrame) (table_name : string)
    (bind_ : Engine) (pk : option pk_arg)
    (dtypes : option (gmap string pyobj)) (w w' : World) (tbl : Table)
    (i : nat) (name : string) (type : pyobj) (is_pk : bool) :
  NoDup (columns df) ->
  overrides_are_types dtypes ->
  reflect df table_name bind_ pk dtypes false w = (inr (AsTable tbl), w') ->
  schema_of tbl !! i = Some (name, type, is_pk) ->
  exists column t,
    df !! i = Some (name, column)
    /\ inferred column = inr t
    /\ type = match default ∅ dtypes !! name with
              | Some override => override
              | None => t
              end.
Proof.
  intros _ _ H Hi. apply reflect_ok_inv in H as (ts & Hc & _ & [= ->]).
  rewrite schema_of_table_of in Hi.
  destruct (collect_lookup _ _ _ _ Hc) as [_ Hall].
  destruct (Hall i name type is_pk Hi) as (c & t & Hdf & Hinf & -> & _).
  exists c, t. repeat split; auto.
Qed.

Lemma reflect_override_or_inferred_witness :
  exists column t,
    example_frame !! 2%nat = Some ("name", column)
    /\ inferred column = inr t
    /\ Ty (Float 53) = match default ∅ (Some name_override) !! "name" with
                       | Some override => override
                       | None => t
                       end.
Proof.
  apply (reflect_override_or_inferred example_frame "TMP_dataframe" sqlite
           None (Some name_override) quiet_world quiet_world _ 2 "name"
           (Ty (Float 53)) false example_frame_names_distinct
           name_override_is_type eq_refl eq_refl).
Defined.

(** X13. Without [pk] (or with an empty list) no column of the schema is
    marked as primary key. *)
Theorem reflect_no_pk (df : DataFrame) (table_name : string)
    (bind_ : Engine) (pk : option pk_arg)
    (dtypes : option (gmap string pyobj)) (w w' : World) (tbl : Table) :
  normalise_pk pk = [] ->
  reflect df table_name bind_ pk dtypes false w = (inr (AsTable tbl), w') ->
  Forall (fun c => c_primary_key c = false) (t_columns tbl).
Proof.
  intros Hpk H. apply reflect_ok_inv in H as (ts & Hc & _ & [= ->]).
  rewrite Hpk in Hc. simpl. clear Hpk.
  revert ts Hc. induction df as [|[n c] df IH]; intros ts; simpl.
  - intros [= <-]. constructor.
  - unfold entry_for. simpl.
    destruct (inferred c); [discriminate|].
    destruct (collect _ [] df) as [e|ts']; [discriminate|].
    intros [= <-]. simpl. constructor; [reflexivity | now apply IH].
Qed.

Lemma reflect_no_pk_witness :
  exists tbl,
    reflect example_frame "TMP_dataframe" sqlite None None false quiet_world
    = (inr (AsTable tbl), quiet_world)
    /\ Forall (fun c => c_primary_key c = false) (t_columns tbl).
Proof.
  eexists. split; [reflexivity|].
  apply (reflect_no_pk example_frame "TMP_dataframe" sqlite None None
           quiet_world quiet_world _ eq_refl eq_refl).
Defined.

(** ** [is_valid_pk] *)

Section UniqueFacts.

Variable same : scalar -> scalar -> bool.

Lemma unique_from_length_le (seen vs : list scalar) :
  (List.length (Frame.unique_from same seen vs) <= List.length vs)%nat.
Proof.
  revert seen. induction vs as [|v vs IH]; intros seen; simpl; [lia|].
  destruct (existsb (same v) seen).
  - specialize (IH seen). lia.
  - simpl. specialize (IH (v :: seen)). lia.
Qed.

(** Nothing is dropped exactly when no value equals one seen before. *)
Lemma unique_from_full (seen vs : list scalar) :
  List.length (Frame.unique_from same seen vs) = List.length vs <->
  Forall (fun b => existsb (same b) seen = false) vs
  /\ Frame.pairwise_distinct same vs.
Proof.
  unfold Frame.pairwise_distinct.
  revert seen. induction vs as [|v vs IH]; intros seen; simpl.
  - split; [intros _; split; constructor | reflexivity].
  - destruct (existsb (same v) seen) eqn:Hv.
    + split.
      * intros H. pose proof (unique_from_length_le seen vs). lia.
      * intros [H _]. inversion H; subst. congruence.
    + simpl. split.
      * intros H. injection H as H. apply IH in H as [Hseen Hpairs].
        split; constructor; auto.
        -- eapply Forall_impl; [exact Hseen|]. simpl.
           intros b Hb. now apply orb_false_elim in Hb as [_ Hb].
        -- eapply Forall_impl; [exact Hseen|]. simpl.
           intros b Hb. now apply orb_false_elim in Hb as [Hb _].
      * intros [Hseen Hpairs]. f_equal. apply IH.
        inversion Hseen as [|? ? _ Hseen']; subst.
        inversion Hpairs as [|? ? Hhead Hpairs']; subst.
        split; [|exact Hpairs'].
        apply List.Forall_forall. intros b Hb. simpl.
        rewrite (proj1 (List.Forall_forall _ _) Hhead b Hb).
        now rewrite (proj1 (List.Forall_forall _ _) Hseen' b Hb).
Qed.

Lemma getitem_one_in (df : DataFrame) (name : string) (column : Series) :
  Frame.getitem df name = Frame.OneSeries column -> In (name, column) df.
Proof.
  unfold Frame.getitem. intros H.
  destruct (List.filter _ df) as [|[n c] [|? ?]] eqn:E; try discriminate H.
  injection H as <-.
  assert (Hin : In (n, c) (List.filter
                  (fun nc : string * Series => String.eqb (fst nc) name) df))
    by (rewrite E; now left).
  apply filter_In in Hin as [Hin Hn]. simpl in Hn.
  apply String.eqb_eq in Hn. now subst.
Qed.

(** The answer of [is_valid_pk] on a column that exists once. *)
Lemma is_valid_pk_one (df : DataFrame) (name : string) (column : Series) :
  Frame.rectangular df ->
  Frame.getitem df name = Frame.OneSeries column ->
  Frame.is_valid_pk same df name
  = inr (Nat.eqb (List.length (s_values column))
           (List.length (Frame.unique same column))).
Proof.
  intros Hrect Hget. unfold Frame.is_valid_pk. rewrite Hget.
  pose proof (getitem_one_in df name column Hget) as Hin.
  unfold Frame.rectangular in Hrect.
  now rewrite <- (proj1 (List.Forall_forall _ _) Hrect _ Hin).
Qed.

(** X14. On a column that exists under its name once, [is_valid_pk]
    answers, and answers True exactly when no row of the column holds a
    value equal to that of an earlier row. *)
Theorem is_valid_pk_iff_distinct (df : DataFrame) (name : string)
    (column : Series) :
  Frame.rectangular df ->
  Frame.getitem df name = Frame.OneSeries column ->
  exists answer,
    Frame.is_valid_pk same df name = inr answer
    /\ (answer = true <-> Frame.pairwise_distinct same (s_values column)).
Proof.
  intros Hrect Hget. eexists.
  split; [apply (is_valid_pk_one df name column Hrect Hget)|].
  rewrite Nat.eqb_eq. unfold Frame.unique.
  split.
  - intros H. symmetry in H. now apply unique_from_full in H as [_ H].
  - intros H. symmetry. apply unique_from_full. split; [|exact H].
    apply List.Forall_forall. reflexivity.
Qed.

Lemma ordered_pairs_repeat (R : scalar -> scalar -> Prop) (v : scalar)
    (l1 l2 l3 : list scalar) :
  ForallOrdPairs R (l1 ++ v :: l2 ++ v :: l3)%list -> R v v.
Proof.
  induction l1 as [|a l1 IH]; simpl; intros H;
    inversion H as [|? ? Hhead Hrest]; subst.
  - apply (proj1 (List.Forall_forall _ _) Hhead). apply in_elt.
  - now apply IH.
Qed.

(** X15. When equal values are equal for the hash table, a column in
    which some value occurs twice -- two nulls count -- is not a valid
    primary key. *)
Theorem is_valid_pk_repeated_value (df : DataFrame) (name : string)
    (column : Series) (v : scalar) (l1 l2 l3 : list scalar) :
  (forall x, same x x = true) ->
  Frame.rectangular df ->
  Frame.getitem df name = Frame.OneSeries column ->
  s_values column = (l1 ++ v :: l2 ++ v :: l3)%list ->
  Frame.is_valid_pk same df name = inr false.
Proof.
  intros Hrefl Hrect Hget Hv.
  rewrite (is_valid_pk_one df name column Hrect Hget). f_equal.
  apply Nat.eqb_neq. intros H. symmetry in H.
  apply unique_from_full in H as [_ H].
  unfold Frame.pairwise_distinct in H. rewrite Hv in H.
  apply ordered_pairs_repeat in H. rewrite Hrefl in H. discriminate H.
Qed.

(** X16. The errors of [is_valid_pk]: a name no column carries raises
    KeyError; a name two columns carry selects a frame, which has no
    [unique], and raises AttributeError. *)
Theorem is_valid_pk_errors (df : DataFrame) (name : string) :
  (~ In name (columns df) ->
   Frame.is_valid_pk same df name = inl (KeyError name))
  /\ (forall l1 c1 l2 c2 l3,
        df = (l1 ++ (name, c1) :: l2 ++ (name, c2) :: l3)%list ->
        Frame.is_valid_pk same df name
        = inl (Raised (AttributeError
                         "'DataFrame' object has no attribute 'unique'"))).
Proof.
  split.
  - intros Hnot. unfold Frame.is_valid_pk, Frame.getitem.
    destruct (List.filter _ df) as [|[n c] rest] eqn:E; [reflexivity|].
    exfalso. apply Hnot.
    assert (Hin : In (n, c) (List.filter
                    (fun nc : string * Series => String.eqb (fst nc) name) df))
      by (rewrite E; now left).
    apply filter_In in Hin as [Hin Hn]. simpl in Hn.
    apply String.eqb_eq in Hn. subst n.
    unfold columns. apply in_map_iff. now exists (name, c).
  - intros l1 c1 l2 c2 l3 ->. unfold Frame.is_valid_pk, Frame.getitem.
    rewrite List.filter_app. simpl. rewrite String.eqb_refl.
    rewrite List.filter_app. simpl. rewrite String.eqb_refl.
    destruct (List.filter _ l1) as [|[n a] [|? ?]]; simpl;
      try reflexivity;
      destruct (List.filter _ l2) as [|? ?]; reflexivity.
Qed.

End UniqueFacts.

Lemma is_valid_pk_iff_distinct_witness :
  exists answer,
    Frame.is_valid_pk structural_same keyed_frame "id" = inr answer
    /\ (answer = true <->
        Frame.pairwise_distinct structural_same (s_values key_column)).
Proof.
  apply (is_valid_pk_iff_distinct structural_same keyed_frame "id" key_column).
  - repeat constructor.
  - reflexivity.
Defined.

Lemma is_valid_pk_repeated_value_witness :
  Frame.is_valid_pk structural_same gappy_frame "x" = inr false.
Proof.
  apply (is_valid_pk_repeated_value structural_same gappy_frame "x"
           repeating_column NaN [PyFloat 7] [PyFloat 9] []).
  - intros x. unfold structural_same. now apply bool_decide_eq_true.
  - repeat constructor.
  - reflexivity.
  - reflexivity.
Defined.

Lemma is_valid_pk_errors_witness :
  Frame.is_valid_pk structural_same keyed_frame "missing"
  = inl (KeyError "missing").
Proof.
  apply (is_valid_pk_errors structural_same keyed_frame "missing").
  simpl. intros [H|[H|H]]; try discriminate H. exact H.
Defined.

(** ** [reduce_mem_usage]: integer columns *)

Lemma takes_int_branch_cases (d : dtype) :
  MemUsage.takes_int_branch d = true <->
  d = int8 \/ d = int16 \/ d = int32 \/ d = int64
  \/ exists subtype closed, d = interval subtype closed.
Proof.
  split.
  - destruct d; simpl; intros H; try discriminate H; eauto 10.
  - intros [-> | [-> | [-> | [-> | (s & c & ->)]]]]; reflexivity.
Qed.



Lemma int_branch_all_ints (column : Series) :
  MemUsage.takes_int_branch (s_dtype column) = true ->
  well_formed column = true ->
  MemUsage.all_ints (s_values column)
  /\ Forall (fun v => forall z, v = PyInt z ->
                      MemUsage.iinfo_min 64 <= z <= MemUsage.iinfo_max 64)
       (s_values column).
Proof.
  intros Hd Hwf. apply takes_int_branch_cases in Hd.
  unfold well_formed in Hwf. unfold MemUsage.all_ints.
  rewrite forallb_forall in Hwf.
  split; apply List.Forall_forall; intros v Hv; specialize (Hwf v Hv).
  - destruct Hd as [E|[E|[E|[E|(s & c & E)]]]]; rewrite E in Hwf;
      destruct v; try discriminate Hwf; eauto.
  - intros z ->. unfold MemUsage.iinfo_min, MemUsage.iinfo_max.
    destruct Hd as [E|[E|[E|[E|(s & c & E)]]]]; rewrite E in Hwf;
      simpl in Hwf; try discriminate Hwf;
      unfold in_range in Hwf; simpl in Hwf;
      apply andb_prop in Hwf as [H1 H2];
      apply Z.leb_le in H1; apply Z.ltb_lt in H2; simpl; lia.
Qed.

(** The minimum and the maximum of a column of integers: attained, and
    bounds of every value. *)
Lemma series_min_spec (vs : list scalar) :
  MemUsage.all_ints vs ->
  match MemUsage.series_min vs with
  | None => vs = []
  | Some m => In (PyInt m) vs /\ forall z, In (PyInt z) vs -> m <= z
  end.
Proof.
  unfold MemUsage.all_ints.
  induction 1 as [|v vs [z0 ->] _ IH]; simpl; [reflexivity|].
  destruct (MemUsage.series_min vs) as [m|].
  - destruct IH as [Hin Hle]. split.
    + destruct (Z.min_spec z0 m) as [[_ ->]|[_ ->]]; [now left | now right].
    + intros z [[= <-]|Hz]; [lia|]. specialize (Hle z Hz). lia.
  - subst vs. split; [now left|].
    intros z [[= <-]|Hf]; [lia | destruct Hf].
Qed.

Lemma series_max_spec (vs : list scalar) :
  MemUsage.all_ints vs ->
  match MemUsage.series_max vs with
  | None => vs = []
  | Some m => In (PyInt m) vs /\ forall z, In (PyInt z) vs -> z <= m
  end.
Proof.
  unfold MemUsage.all_ints.
  induction 1 as [|v vs [z0 ->] _ IH]; simpl; [reflexivity|].
  destruct (MemUsage.series_max vs) as [m|].
  - destruct IH as [Hin Hle]. split.
    + destruct (Z.max_spec z0 m) as [[_ ->]|[_ ->]]; [now right | now left].
    + intros z [[= <-]|Hz]; [lia|]. specialize (Hle z Hz). lia.
  - subst vs. split; [now left|].
    intros z [[= <-]|Hf]; [lia | destruct Hf].
Qed.

(** A value inside the range of the target type is not changed by the
    conversion. *)
Lemma wrap_inside (bits z : Z) :
  0 < bits ->
  MemUsage.iinfo_min bits <= z <= MemUsage.iinfo_max bits ->
  MemUsage.wrap bits z = z.
Proof.
  unfold MemUsage.iinfo_min, MemUsage.iinfo_max, MemUsage.wrap.
  intros Hb Hz.
  assert (Hpow : 2 ^ bits = 2 * 2 ^ (bits - 1)).
  { replace bits with (Z.succ (bits - 1)) at 1 by lia.
    apply Z.pow_succ_r. lia. }
  assert (0 < 2 ^ (bits - 1)) by (apply Z.pow_pos_nonneg; lia).
  rewrite Z.mod_small by lia. lia.
Qed.

Lemma astype_int_inside (d : dtype) (bits : Z) (column : Series) :
  0 < bits ->
  Forall (fun v => forall z, v = PyInt z ->
                   MemUsage.iinfo_min bits <= z <= MemUsage.iinfo_max bits)
    (s_values column) ->
  s_values (MemUsage.astype_int d bits column) = s_values column.
Proof.
  intros Hb Hall. unfold MemUsage.astype_int. simpl.
  induction Hall as [|v vs Hv _ IH]; simpl; [reflexivity|].
  rewrite IH. f_equal. destruct v; try reflexivity.
  simpl. now rewrite (wrap_inside bits z Hb (Hv z eq_refl)).
Qed.

(** What [downscale_int] decides, read against the values of the column:
    [inside bits] says that every value lies strictly between the two
    ends of the signed type of that many bits. *)
Lemma downscale_int_cases (column : Series) :
  MemUsage.all_ints (s_values column) ->
  s_values column <> [] ->
  let inside bits :=
    forall z, In (PyInt z) (s_values column) ->
              MemUsage.strictly_inside bits z in
  (inside 8 /\ MemUsage.downscale_int column = MemUsage.astype_int int8 8 column)
  \/ (~ inside 8 /\ inside 16
      /\ MemUsage.downscale_int column = MemUsage.astype_int int16 16 column)
  \/ (~ inside 16 /\ inside 32
      /\ MemUsage.downscale_int column = MemUsage.astype_int int32 32 column)
  \/ (~ inside 32 /\ inside 64
      /\ MemUsage.downscale_int column = MemUsage.astype_int int64 64 column)
  \/ (~ inside 64 /\ MemUsage.downscale_int column = column).
Proof.
  intros Hints Hne inside.
  pose proof (series_min_spec _ Hints) as Hmin.
  pose proof (series_max_spec _ Hints) as Hmax.
  unfold MemUsage.downscale_int.
  destruct (MemUsage.series_min (s_values column)) as [lo|]; [|contradiction].
  destruct (MemUsage.series_max (s_values column)) as [hi|]; [|contradiction].
  destruct Hmin as [Hlo_in Hlo], Hmax as [Hhi_in Hhi].
  assert (Hinside : forall bits,
             inside bits <->
             MemUsage.iinfo_min bits < lo /\ hi < MemUsage.iinfo_max bits).
  { intros bits. unfold inside, MemUsage.strictly_inside. split.
    - intros H. pose proof (H lo Hlo_in). pose proof (H hi Hhi_in). lia.
    - intros [H1 H2] z Hz. specialize (Hlo z Hz). specialize (Hhi z Hz). lia. }
  assert (Htest : forall bits,
             (lo >? MemUsage.iinfo_min bits) && (hi <? MemUsage.iinfo_max bits)
             = true <-> inside bits).
  { intros bits. rewrite Hinside, andb_true_iff, Z.gtb_lt, Z.ltb_lt. tauto. }
  destruct ((lo >? MemUsage.iinfo_min 8) && (hi <? MemUsage.iinfo_max 8))
    eqn:E8.
  { left. split; [now apply Htest | reflexivity]. }
  assert (N8 : ~ inside 8) by (rewrite <- Htest, E8; discriminate).
  destruct ((lo >? MemUsage.iinfo_min 16) && (hi <? MemUsage.iinfo_max 16))
    eqn:E16.
  { right; left. split; [exact N8|].
    split; [now apply Htest | reflexivity]. }
  assert (N16 : ~ inside 16) by (rewrite <- Htest, E16; discriminate).
  destruct ((lo >? MemUsage.iinfo_min 32) && (hi <? MemUsage.iinfo_max 32))
    eqn:E32.
  { right; right; left. split; [exact N16|].
    split; [now apply Htest | reflexivity]. }
  assert (N32 : ~ inside 32) by (rewrite <- Htest, E32; discriminate).
  destruct ((lo >? MemUsage.iinfo_min 64) && (hi <? MemUsage.iinfo_max 64))
    eqn:E64.
  { right; right; right; left. split; [exact N32|].
    split; [now apply Htest | reflexivity]. }
  assert (N64 : ~ inside 64) by (rewrite <- Htest, E64; discriminate).
  right; right; right; right. now split.
Qed.

Lemma inside_between (bits : Z) (vs : list scalar) :
  (forall z, In (PyInt z) vs -> MemUsage.strictly_inside bits z) ->
  Forall (fun v => forall z, v = PyInt z ->
                   MemUsage.iinfo_min bits <= z <= MemUsage.iinfo_max bits) vs.
Proof.
  intros H. apply List.Forall_forall. intros v Hv z ->.
  specialize (H z Hv). unfold MemUsage.strictly_inside in H. lia.
Qed.

(** X18. Downscaling an integer column never changes a value: whatever
    type the branch picks, every value of the column fits it, so the
    conversion does not wrap around. *)
Theorem downscale_int_lossless (column : Series) :
  MemUsage.takes_int_branch (s_dtype column) = true ->
  well_formed column = true ->
  s_values (MemUsage.downscale_int column) = s_values column.
Proof.
  intros Hd Hwf.
  destruct (int_branch_all_ints column Hd Hwf) as [Hints _].
  destruct (s_values column) as [|v0 vs0] eqn:Hvs.
  { unfold MemUsage.downscale_int. now rewrite Hvs. }
  assert (Hne : s_values column <> []) by (rewrite Hvs; discriminate).
  rewrite <- Hvs in *. clear Hvs.
  destruct (downscale_int_cases column Hints Hne)
    as [[H ->]|[(_ & H & ->)|[(_ & H & ->)|[(_ & H & ->)|[_ ->]]]]];
    try reflexivity;
    (apply astype_int_inside; [lia | now apply inside_between]).
Qed.

Lemma downscale_int_lossless_witness :
  s_values (MemUsage.downscale_int small_int64_column)
  = s_values small_int64_column
  /\ s_dtype (MemUsage.downscale_int small_int64_column) = int8.
Proof.
  split; [|reflexivity].
  apply (downscale_int_lossless small_int64_column); reflexivity.
Defined.

(** X19. The type picked for a non-empty integer column is the
    narrowest of int8, int16, int32 whose range, both ends excluded,
    holds every value, and int64 when none of them does. *)
Theorem downscale_int_narrowest (column : Series) :
  MemUsage.takes_int_branch (s_dtype column) = true ->
  well_formed column = true ->
  s_values column <> [] ->
  let inside bits :=
    forall z, In (PyInt z) (s_values column) ->
              MemUsage.strictly_inside bits z in
  let picked := s_dtype (MemUsage.downscale_int column) in
  (inside 8 -> picked = int8)
  /\ (~ inside 8 -> inside 16 -> picked = int16)
  /\ (~ inside 16 -> inside 32 -> picked = int32)
  /\ (~ inside 32 -> picked = int64).
Proof.
  intros Hd Hwf Hne. cbv zeta.
  destruct (int_branch_all_ints column Hd Hwf) as [Hints Hrange].
  assert (Hmono : forall a b, a <= b ->
            (forall z, In (PyInt z) (s_values column) ->
                       MemUsage.strictly_inside a z) ->
            forall z, In (PyInt z) (s_values column) ->
                      MemUsage.strictly_inside b z).
  { intros a b Hab Ha z Hz. specialize (Ha z Hz).
    unfold MemUsage.strictly_inside, MemUsage.iinfo_min, MemUsage.iinfo_max
      in *.
    assert (2 ^ (a - 1) <= 2 ^ (b - 1)).
    { destruct (Z_lt_le_dec (a - 1) 0) as [Hneg|Hpos].
      - rewrite (Z.pow_neg_r 2 (a - 1) Hneg) in *. lia.
      - apply Z.pow_le_mono_r; lia. }
    lia. }
  pose proof (downscale_int_cases column Hints Hne) as Hc.
  cbv zeta beta in Hc.
  destruct Hc as [[H E]|[(N & H & E)|[(N & H & E)|[(N & H & E)|[N E]]]]];
    rewrite E; simpl; repeat split; intros;
    try reflexivity; try contradiction;
    try match goal with
      | Hn : ~ _,
        Hp : (forall z, _ -> MemUsage.strictly_inside ?b z) |- _ =>
          exfalso; apply Hn; apply (Hmono b _); [lia | exact Hp]
      end.
  (* untouched: the column held an end of int64, so it was int64 *)
  apply takes_int_branch_cases in Hd.
  destruct Hd as [Ed|[Ed|[Ed|[Ed|(s & c & Ed)]]]]; try exact Ed;
    exfalso; apply N;
    intros z Hz; unfold well_formed in Hwf; rewrite forallb_forall in Hwf;
    specialize (Hwf _ Hz); rewrite Ed in Hwf; simpl in Hwf;
    try discriminate Hwf;
    unfold in_range in Hwf; simpl in Hwf;
    apply andb_prop in Hwf as [H1 H2];
    apply Z.leb_le in H1; apply Z.ltb_lt in H2;
    unfold MemUsage.strictly_inside, MemUsage.iinfo_min, MemUsage.iinfo_max;
    simpl; lia.
Qed.

Lemma downscale_int_narrowest_witness :
  s_dtype (MemUsage.downscale_int full_int8_column) = int16.
Proof.
  apply (downscale_int_narrowest full_int8_column);
    try reflexivity; try discriminate.
  - intros H. specialize (H 127 (or_intror (or_introl eq_refl))).
    unfold MemUsage.strictly_inside, MemUsage.iinfo_max in H. simpl in H. lia.
  - intros z [[= <-]|[[= <-]|Hf]]; try destruct Hf;
      unfold MemUsage.strictly_inside, MemUsage.iinfo_min, MemUsage.iinfo_max;
      simpl; lia.
Defined.

(** ** [nearest_future] *)

Ltac euclid := Z.to_euclidean_division_equations; lia.

Lemma add_days_ok (dt : Dattim.pydatetime) (days : Z) :
  Dattim.MINORDINAL <= Dattim.ordinal dt + days <= Dattim.MAXORDINAL ->
  Dattim.add_days dt days
  = inr {| Dattim.ordinal := Dattim.ordinal dt + days;
           Dattim.time_of_day := Dattim.time_of_day dt |}.
Proof.
  intros H. unfold Dattim.add_days.
  destruct (Z.leb_spec Dattim.MINORDINAL (Dattim.ordinal dt + days));
    destruct (Z.leb_spec (Dattim.ordinal dt + days) Dattim.MAXORDINAL);
    simpl; try reflexivity; lia.
Qed.

Lemma add_days_inv (dt r : Dattim.pydatetime) (days : Z) :
  Dattim.add_days dt days = inr r ->
  Dattim.ordinal r = Dattim.ordinal dt + days
  /\ Dattim.time_of_day r = Dattim.time_of_day dt
  /\ Dattim.MINORDINAL <= Dattim.ordinal r <= Dattim.MAXORDINAL.
Proof.
  unfold Dattim.add_days.
  destruct (Z.leb_spec Dattim.MINORDINAL (Dattim.ordinal dt + days));
    destruct (Z.leb_spec (Dattim.ordinal dt + days) Dattim.MAXORDINAL);
    simpl; try discriminate.
  intros [= <-]. simpl. lia.
Qed.

(** X20. Given a weekday number, and provided the day aimed at is not
    after 9999-12-31, the observance moves a date forward by at most six
    days, onto the first day from the date on (the date itself included)
    whose weekday is that number modulo 7, and keeps the time of day. *)
Theorem nearest_future_lands (day_name : list string) (n : Z)
    (dt : Dattim.pydatetime) :
  Dattim.in_calendar dt ->
  Dattim.ordinal dt + (n - Dattim.weekday dt + 7) mod 7
  <= Dattim.MAXORDINAL ->
  exists r,
    Dattim.observance day_name (Dattim.DayNumber n) dt = inr r
    /\ Dattim.weekday r = n mod 7
    /\ Dattim.ordinal dt <= Dattim.ordinal r <= Dattim.ordinal dt + 6
    /\ Dattim.time_of_day r = Dattim.time_of_day dt
    /\ forall o, Dattim.ordinal dt <= o < Dattim.ordinal r ->
                 (o + 6) mod 7 <> n mod 7.
Proof.
  unfold Dattim.in_calendar, Dattim.MINORDINAL.
  intros Hcal Hroom.
  unfold Dattim.observance, Dattim.nearest_future, Dattim._wrapper.
  set (days := (n - Dattim.weekday dt + 7) mod 7) in *.
  assert (Hdays : 0 <= days < 7) by (apply Z.mod_pos_bound; lia).
  rewrite add_days_ok by (unfold Dattim.MINORDINAL; lia).
  eexists. split; [reflexivity|]. unfold Dattim.weekday in *. simpl.
  subst days. repeat split; try lia; try euclid.
  intros o Ho. euclid.
Qed.

Lemma nearest_future_lands_witness :
  exists r,
    Dattim.observance Dattim.english_day_name (Dattim.DayNumber 4) last_day
    = inr r
    /\ Dattim.weekday r = 4 mod 7
    /\ Dattim.ordinal last_day <= Dattim.ordinal r
       <= Dattim.ordinal last_day + 6
    /\ Dattim.time_of_day r = Dattim.time_of_day last_day
    /\ forall o, Dattim.ordinal last_day <= o < Dattim.ordinal r ->
                 (o + 6) mod 7 <> 4 mod 7.
Proof.
  apply (nearest_future_lands Dattim.english_day_name 4 last_day).
  - unfold Dattim.in_calendar, last_day, Dattim.MINORDINAL, Dattim.MAXORDINAL.
    simpl. lia.
  - vm_compute. discriminate.
Defined.

(** X21. The observance is idempotent: applied to a date it returned,
    it returns that date. *)
Theorem nearest_future_idempotent (day_name : list string)
    (wd : Dattim.weekday_arg) (dt r : Dattim.pydatetime) :
  Dattim.observance day_name wd dt = inr r ->
  Dattim.observance day_name wd r = inr r.
Proof.
  unfold Dattim.observance.
  destruct (Dattim.nearest_future day_name wd) as [e|f] eqn:Hf;
    [discriminate|].
  assert (Hw : exists n, f = Dattim._wrapper n).
  { unfold Dattim.nearest_future in Hf. destruct wd as [s|n].
    - destruct (Dattim.list_index _ s); [discriminate|].
      injection Hf as <-. eauto.
    - injection Hf as <-. eauto. }
  destruct Hw as [n ->]. unfold Dattim._wrapper.
  intros H. apply add_days_inv in H as (Ho & Ht & Hrange).
  assert (Hzero : (n - Dattim.weekday r + 7) mod 7 = 0).
  { unfold Dattim.weekday in *. rewrite Ho. euclid. }
  rewrite Hzero. rewrite add_days_ok by lia.
  destruct r as [o t]. simpl. f_equal. f_equal. lia.
Qed.

Lemma nearest_future_idempotent_witness :
  Dattim.observance Dattim.english_day_name (Dattim.DayName "sunday")
    {| Dattim.ordinal := 737457; Dattim.time_of_day := 0 |}
  = inr {| Dattim.ordinal := 737457; Dattim.time_of_day := 0 |}.
Proof.
  apply (nearest_future_idempotent Dattim.english_day_name
           (Dattim.DayName "sunday") superbowl_eve).
  reflexivity.
Defined.

(** X22. Past the end of the calendar: when the day aimed at lies after
    9999-12-31 the observance raises OverflowError instead of returning a
    date. *)
Theorem nearest_future_overflow (day_name : list string) (n : Z)
    (dt : Dattim.pydatetime) :
  Dattim.MAXORDINAL
  < Dattim.ordinal dt + (n - Dattim.weekday dt + 7) mod 7 ->
  Dattim.observance day_name (Dattim.DayNumber n) dt
  = inl (OverflowError "date value out of range").
Proof.
  intros H. unfold Dattim.observance, Dattim.nearest_future,
    Dattim._wrapper, Dattim.add_days.
  destruct (Z.leb_spec
              (Dattim.ordinal dt + (n - Dattim.weekday dt + 7) mod 7)
              Dattim.MAXORDINAL); [lia|].
  now rewrite andb_false_r.
Qed.

Lemma nearest_future_overflow_witness :
  Dattim.observance Dattim.english_day_name (Dattim.DayNumber 0) last_day
  = inl (OverflowError "date value out of range").
Proof.
  apply (nearest_future_overflow Dattim.english_day_name 0 last_day).
  reflexivity.
Defined.

Lemma index_from_in (i : Z) (x : string) (xs : list string) (k : Z) :
  Dattim.index_from i x xs = Some k -> In x xs.
Proof.
  revert i. induction xs as [|y xs IH]; intros i; simpl; [discriminate|].
  destruct (String.eqb_spec y x) as [->|_]; [now left|].
  intros H. right. now apply (IH (i + 1)).
Qed.

(** The position [list.index] finds: that of the first occurrence. *)
Lemma index_from_first (k : Z) (x : string) (xs : list string) (i : nat) :
  xs !! i = Some x ->
  (forall (j : nat) y, (j < i)%nat -> xs !! j = Some y -> y <> x) ->
  Dattim.index_from k x xs = Some (k + Z.of_nat i).
Proof.
  revert k i. induction xs as [|y xs IH]; intros k [|i] Hi Hfirst;
    simpl in *; try discriminate Hi.
  - injection Hi as ->. rewrite String.eqb_refl. f_equal. lia.
  - destruct (String.eqb_spec y x) as [E|_].
    + exfalso. apply (Hfirst 0%nat y); [lia | reflexivity | exact E].
    + rewrite (IH (k + 1) i Hi).
      * f_equal. lia.
      * intros j z Hj Hz. apply (Hfirst (S j) z); [lia | exact Hz].
Qed.

Lemma lowerN_idempotent (n : N) : lowerN (lowerN n) = lowerN n.
Proof.
  unfold lowerN. destruct (is_upper n) eqn:E; [|now rewrite E].
  destruct (is_upper (n + 32)) eqn:E'; [|reflexivity].
  upper_facts. lia.
Qed.

(** Lower-casing twice is lower-casing once. *)
Lemma lower_idempotent (s : string) : lower (lower s) = lower s.
Proof.
  induction s as [|c s IH]; simpl; [reflexivity|]. rewrite IH. f_equal.
  apply N_of_ascii_inj. rewrite !lower_char_N. apply lowerN_idempotent.
Qed.

Lemma lookup_map_lower (xs : list string) (i : nat) (d : string) :
  xs !! i = Some d -> List.map lower xs !! i = Some (lower d).
Proof.
  revert i. induction xs as [|y xs IH]; intros [|i]; simpl;
    try discriminate.
  - now intros [= ->].
  - apply IH.
Qed.

Lemma lookup_map_lower_inv (xs : list string) (j : nat) (y : string) :
  List.map lower xs !! j = Some y ->
  exists d, xs !! j = Some d /\ y = lower d.
Proof.
  revert j. induction xs as [|x xs IH]; intros [|j]; simpl;
    try discriminate.
  - intros [= <-]. eauto.
  - apply IH.
Qed.

(** X23. A weekday given by name is looked up, as it is written, among
    the lower-cased day names of the locale: the lower-cased name of day
    number [i] acts as the number [i] (when no earlier day has the same
    lower-cased name), and a name that lower-casing would change -- one
    with a capital letter, [Sunday] say -- is not found and raises the
    ValueError of [list.index]. *)
Theorem nearest_future_by_name (day_name : list string) :
  (forall (i : nat) (d : string),
      day_name !! i = Some d ->
      (forall (j : nat) d', (j < i)%nat -> day_name !! j = Some d' ->
                            lower d' <> lower d) ->
      forall dt,
        Dattim.observance day_name (Dattim.DayName (lower d)) dt
        = Dattim.observance day_name (Dattim.DayNumber (Z.of_nat i)) dt)
  /\ (forall s, lower s <> s ->
        Dattim.nearest_future day_name (Dattim.DayName s)
        = inl (NotInList s)).
Proof.
  split.
  - intros i d Hd Hfirst dt.
    unfold Dattim.observance, Dattim.nearest_future, Dattim.list_index.
    rewrite (index_from_first 0 (lower d) (List.map lower day_name) i).
    + reflexivity.
    + now apply lookup_map_lower.
    + intros j y Hj Hy. apply lookup_map_lower_inv in Hy as (d' & Hd' & ->).
      now apply (Hfirst j d').
  - intros s Hs. unfold Dattim.nearest_future, Dattim.list_index.
    destruct (Dattim.index_from 0 s _) as [k|] eqn:E; [|reflexivity].
    exfalso. apply Hs. apply index_from_in in E.
    apply in_map_iff in E as (d & <- & _). apply lower_idempotent.
Qed.

Lemma nearest_future_by_name_witness :
  Dattim.observance Dattim.english_day_name (Dattim.DayName "sunday")
    superbowl_eve
  = Dattim.observance Dattim.english_day_name (Dattim.DayNumber 6)
      superbowl_eve
  /\ Dattim.nearest_future Dattim.english_day_name (Dattim.DayName "Sunday")
     = inl (NotInList "Sunday").
Proof.
  destruct (nearest_future_by_name Dattim.english_day_name) as [Hname Hcap].
  split.
  - apply (Hname 6%nat "Sunday" eq_refl).
    intros j d' Hj Hd'.
    do 6 (destruct j as [|j]; [injection Hd' as <-; discriminate|]).
    lia.
  - apply (Hcap "Sunday"). discriminate.
Defined.

(** ** [spss_value_encoder] *)

Lemma cp1252_char_undefined (c : ascii) :
  SPSS.cp1252_char c = None <-> SPSS.undefined_byte c = true.
Proof.
  destruct c as [[] [] [] [] [] [] [] []]; vm_compute; split; congruence.
Qed.

(** Outside 0x80-0x9F a byte decodes to the code point of its own
    number. *)
Lemma cp1252_char_identity (c : ascii) :
  (N_of_ascii c < 128 \/ 160 <= N_of_ascii c)%N ->
  SPSS.cp1252_char c = Some (N_of_ascii c).
Proof.
  unfold SPSS.cp1252_char. intros [H|H].
  - destruct (N.ltb_spec (N_of_ascii c) 128); [reflexivity | lia].
  - destruct (N.ltb_spec (N_of_ascii c) 128); [reflexivity|].
    destruct (N.ltb_spec (N_of_ascii c) 160); [lia | reflexivity].
Qed.

Lemma decode_from_ok (i : nat) (b : list ascii) :
  forallb (fun c => negb (SPSS.undefined_byte c)) b = true ->
  exists cps,
    SPSS.decode_from i b = inr cps
    /\ List.map Some cps = List.map SPSS.cp1252_char b.
Proof.
  revert i. induction b as [|c b IH]; intros i; simpl.
  - intros _. now exists [].
  - intros [Hc Hb]%andb_prop.
    destruct (SPSS.cp1252_char c) as [cp|] eqn:E.
    + destruct (IH (S i) Hb) as (cps & -> & Hmap).
      exists (cp :: cps). simpl. now rewrite Hmap.
    + apply cp1252_char_undefined in E. rewrite E in Hc. discriminate Hc.
Qed.

Lemma decode_from_fails (i : nat) (b : list ascii) :
  existsb SPSS.undefined_byte b = true ->
  exists k, SPSS.decode_from i b = inl (UnicodeDecodeError "charmap" k).
Proof.
  revert i. induction b as [|c b IH]; intros i; simpl; [discriminate|].
  intros H. destruct (SPSS.cp1252_char c) as [cp|] eqn:E; [|eauto].
  destruct (SPSS.undefined_byte c) eqn:Hc.
  - apply cp1252_char_undefined in Hc. congruence.
  - simpl in H. destruct (IH (S i) H) as [k ->]. eauto.
Qed.

(** X24. A [bytes] value is decoded byte by byte, one code point for
    each byte, when none of its bytes is one of the five that CP1252
    leaves undefined (0x81, 0x8D, 0x8F, 0x90, 0x9D); otherwise the call
    raises UnicodeDecodeError. *)
Theorem spss_bytes_decoding (b : list ascii) :
  (forallb (fun c => negb (SPSS.undefined_byte c)) b = true ->
   exists cps,
     SPSS.spss_value_encoder (SPSS.VBytes b) = inr (SPSS.VStr cps)
     /\ List.length cps = List.length b
     /\ List.map Some cps = List.map SPSS.cp1252_char b)
  /\ (existsb SPSS.undefined_byte b = true ->
      exists k,
        SPSS.spss_value_encoder (SPSS.VBytes b)
        = inl (UnicodeDecodeError "charmap" k)).
Proof.
  split; intros H; simpl.
  - destruct (decode_from_ok 0 b H) as (cps & -> & Hmap).
    exists cps. repeat split; [|exact Hmap].
    apply (f_equal (@List.length _)) in Hmap.
    now rewrite !List.length_map in Hmap.
  - destruct (decode_from_fails 0 b H) as [k ->]. eauto.
Qed.

Lemma spss_bytes_decoding_witness :
  (exists cps,
      SPSS.spss_value_encoder (SPSS.VBytes cafe_bytes) = inr (SPSS.VStr cps)
      /\ List.length cps = List.length cafe_bytes
      /\ List.map Some cps = List.map SPSS.cp1252_char cafe_bytes)
  /\ exists k,
       SPSS.spss_value_encoder (SPSS.VBytes undefined_bytes)
       = inl (UnicodeDecodeError "charmap" k).
Proof.
  split.
  - apply (spss_bytes_decoding cafe_bytes). reflexivity.
  - apply (spss_bytes_decoding undefined_bytes). reflexivity.
Defined.

(** X25. Bytes outside 0x80-0x9F -- ASCII and the upper half of
    Latin-1 -- come out as the code points of their own numbers. *)
Theorem spss_plain_bytes (b : list ascii) :
  Forall (fun c => (N_of_ascii c < 128 \/ 160 <= N_of_ascii c)%N) b ->
  SPSS.spss_value_encoder (SPSS.VBytes b)
  = inr (SPSS.VStr (List.map N_of_ascii b)).
Proof.
  intros H. simpl.
  assert (E : forall i, SPSS.decode_from i b = inr (List.map N_of_ascii b)).
  { induction H as [|c b Hc _ IH]; intros i; simpl; [reflexivity|].
    now rewrite (cp1252_char_identity c Hc), IH. }
  now rewrite E.
Qed.

Lemma spss_plain_bytes_witness :
  SPSS.spss_value_encoder (SPSS.VBytes cafe_bytes)
  = inr (SPSS.VStr [99; 97; 102; 233]%N).
Proof.
  apply (spss_plain_bytes cafe_bytes).
  repeat constructor; vm_compute; intuition discriminate.
Defined.

(** X26. What the encoder hands back is never [bytes]: None and numbers
    come back as they are, bytes come back decoded. *)
Theorem spss_never_bytes (v r : SPSS.value) :
  SPSS.spss_value_encoder v = inr r ->
  match v with
  | SPSS.VNone | SPSS.VFloat _ => r = v
  | SPSS.VBytes b => exists cps, r = SPSS.VStr cps
  | SPSS.VStr _ => False
  end
  /\ forall b, r <> SPSS.VBytes b.
Proof.
  destruct v as [|bits|b|s]; simpl.
  - intros [= <-]. split; [reflexivity | discriminate].
  - intros [= <-]. split; [reflexivity | discriminate].
  - destruct (SPSS.decode_from 0 b) as [e|cps]; [discriminate|].
    intros [= <-]. split; [eauto | discriminate].
  - discriminate.
Qed.

Lemma spss_never_bytes_witness :
  (exists cps, SPSS.VStr [99; 97; 102; 233]%N = SPSS.VStr cps)
  /\ forall b, SPSS.VStr [99; 97; 102; 233]%N <> SPSS.VBytes b.
Proof.
  apply (spss_never_bytes (SPSS.VBytes cafe_bytes)). reflexivity.
Defined.

(** X27. The encoder cannot be run over its own output: a [str], which
    the annotation of the argument allows, has no [decode] and raises
    AttributeError; so does whatever the encoder made of a [bytes]. *)
Theorem spss_str_rejected :
  (forall cps,
      SPSS.spss_value_encoder (SPSS.VStr cps)
      = inl (Raised (AttributeError "'str' object has no attribute 'decode'")))
  /\ (forall b r,
        SPSS.spss_value_encoder (SPSS.VBytes b) = inr r ->
        SPSS.spss_value_encoder r
        = inl (Raised
                 (AttributeError "'str' object has no attribute 'decode'"))).
Proof.
  split; [reflexivity|].
  intros b r H. simpl in H.
  destruct (SPSS.decode_from 0 b) as [e|cps]; [discriminate|].
  now injection H as <-.
Qed.

Lemma spss_str_rejected_witness :
  SPSS.spss_value_encoder (SPSS.VStr [99; 97; 102; 233]%N)
  = inl (Raised (AttributeError "'str' object has no attribute 'decode'")).
Proof.
  apply (proj2 spss_str_rejected cafe_bytes). reflexivity.
Defined.
